(** * Discover page: listing query and booking request

    A shallow embedding of [src/pages/Discover.tsx]: the services query
    ([queryFn]), the booking mutation ([createBooking]) and the two
    handlers ([handleCategoryClick], [handleBookService]), run against a
    model of the remote store they talk to (tables [services], [profiles]
    and [bookings], reached through a query builder whose calls can
    succeed, answer with an error, or reject). *)

From Stdlib Require Import String Ascii List Bool Arith ZArith Lia.
Import ListNotations.
Open Scope string_scope.
Open Scope list_scope.

(** ** Rows of the three tables *)

(** The columns of [services] that the listing query selects. *)
Module Service.
Record t := mk {
  id : string;
  title : string;
  description : option string;
  price : Z;
  category : string;
  city : string;
  provider_id : string
}.
End Service.

(** A stored service: the selected columns and the [is_active] flag. *)
Record StoredService := {
  row : Service.t;
  is_active : bool
}.

(** The columns of [profiles] that the provider lookup selects. *)
Module Profile.
Record t := mk {
  id : string;
  full_name : string
}.
End Profile.

(** What [createBooking] sends to the store. *)
Module Draft.
Record t := mk {
  service_id : string;
  customer_id : string;
  provider_id : string;
  status : string;
  booking_date : string
}.
End Draft.

(** A stored booking: the draft's columns and the key the store gives it. *)
Module Booking.
Record t := mk {
  id : nat;
  service_id : string;
  customer_id : string;
  provider_id : string;
  status : string;
  booking_date : string
}.
End Booking.

(** One element of the array [servicesWithProviders]: the service's own
    columns ([...service]) and the [provider] that [find] returned
    ([None] is JavaScript's [undefined]). *)
Module ListingView.
Record t := mk {
  service : Service.t;
  provider : option Profile.t
}.
End ListingView.

Record User := { user_id : string }.

(** ** Page state, toasts and the trace of effects *)

(** [useState] pair of the page: [selectedCategory] and [selectedCity]. *)
Record ViewState := {
  selectedCategory : option string;
  selectedCity : option string
}.

Definition unfiltered : ViewState :=
  {| selectedCategory := None; selectedCity := None |}.

Record ToastMsg := {
  toast_title : string;
  toast_description : string;
  destructive : bool
}.

(** Filters of the query builder, one constructor per call in the source. *)
Inductive ServiceFilter :=
| IsActiveEq (b : bool)
| CategoryIlike (pattern : string)
| CityEq (c : string).

Inductive BookingFilter :=
| ServiceIdEq (s : string)
| CustomerIdEq (c : string)
| StatusIn (l : list string).

(** A request that reaches the store. *)
Inductive Request :=
| SelectServices (q : list ServiceFilter)
| SelectProfiles (ids : list string)
| SelectBookings (q : list BookingFilter)
| InsertBooking (d : Draft.t).

Inductive Event :=
| Store (r : Request)
| Toast (t : ToastMsg)
| Invalidate (queryKey : string)
| ConsoleLog (label : string)
| ConsoleError (label : string).

(** What JavaScript code can throw here. *)
Inductive Thrown :=
| PostgrestError (table : string)
| Rejection (table : string)
| JsError (message : string).

(** How one kind of call to the store behaves: it answers with rows, it
    answers [{ data: null, error }], or the awaited promise rejects. *)
Inductive Link := Up | Failing | Throwing.

Record Net := {
  services_select : Link;
  profiles_select : Link;
  bookings_select : Link;
  bookings_insert : Link
}.

(** State of the [createBooking] mutation object. *)
Inductive Mutation :=
| Idle
| Succeeded (data : option (list Booking.t))
| Errored (e : Thrown).

Record World := {
  services : list StoredService;
  profiles : list Profile.t;
  bookings : list Booking.t;
  net : Net;
  clock : string;              (* [new Date().toISOString()] *)
  user : option User;          (* [useUser().data] *)
  view : ViewState;
  createBooking : Mutation;
  trace : list Event
}.

Definition set_trace (t : list Event) (w : World) : World :=
  {| services := services w; profiles := profiles w; bookings := bookings w;
     net := net w; clock := clock w; user := user w; view := view w;
     createBooking := createBooking w; trace := t |}.

Definition set_bookings (b : list Booking.t) (w : World) : World :=
  {| services := services w; profiles := profiles w; bookings := b;
     net := net w; clock := clock w; user := user w; view := view w;
     createBooking := createBooking w; trace := trace w |}.

Definition set_view (v : ViewState) (w : World) : World :=
  {| services := services w; profiles := profiles w; bookings := bookings w;
     net := net w; clock := clock w; user := user w; view := v;
     createBooking := createBooking w; trace := trace w |}.

Definition set_mutation (m : Mutation) (w : World) : World :=
  {| services := services w; profiles := profiles w; bookings := bookings w;
     net := net w; clock := clock w; user := user w; view := view w;
     createBooking := m; trace := trace w |}.

(** ** A state and exception monad for the asynchronous code *)

Inductive Res (A : Type) :=
| Val (a : A)
| Exn (e : Thrown).
Arguments Val {A} a.
Arguments Exn {A} e.

Definition M (A : Type) : Type := World -> Res A * World.

Definition ret {A} (a : A) : M A := fun w => (Val a, w).

Definition bind {A B} (m : M A) (k : A -> M B) : M B :=
  fun w => match m w with
           | (Val a, w') => k a w'
           | (Exn e, w') => (Exn e, w')
           end.

Definition throw {A} (e : Thrown) : M A := fun w => (Exn e, w).

Definition try_catch {A} (body : M A) (handler : Thrown -> M A) : M A :=
  fun w => match body w with
           | (Val a, w') => (Val a, w')
           | (Exn e, w') => handler e w'
           end.

Notation "x <- m ;; k" := (bind m (fun x => k))
  (at level 61, m at next level, right associativity).
Notation "m ;; k" := (bind m (fun _ => k))
  (at level 61, right associativity).

Definition emit (e : Event) : M unit :=
  fun w => (Val tt, set_trace (trace w ++ [e]) w).

Definition toast (t : ToastMsg) : M unit := emit (Toast t).
Definition console_log (label : string) : M unit := emit (ConsoleLog label).
Definition console_error (label : string) : M unit := emit (ConsoleError label).
Definition invalidateQueries (key : string) : M unit := emit (Invalidate key).

Definition exec {A} (m : M A) (w : World) : World := snd (m w).
Definition result {A} (m : M A) (w : World) : Res A := fst (m w).

(** ** The store's matching operators *)

(** Case folding of [ILIKE], on the ASCII letters. The store folds
    letters outside ASCII as well, by the rules of its locale; they are
    left as they are here, so what is stated with [ilike] or [eq_ci] is
    stated for ASCII text. *)
Definition lower (c : ascii) : ascii :=
  let n := nat_of_ascii c in
  if ((65 <=? n) && (n <=? 90))%nat then ascii_of_nat (n + 32)%nat else c.

Fixpoint lower_str (s : string) : string :=
  match s with
  | EmptyString => EmptyString
  | String c s' => String (lower c) (lower_str s')
  end.

(** Equality of two strings up to the case of their ASCII letters. *)
Definition eq_ci (a b : string) : bool := String.eqb (lower_str a) (lower_str b).

Inductive Tok :=
| TAny                 (* [%]: any run of characters *)
| TOne                 (* [_]: any one character *)
| TLit (c : ascii).

(** The request layer rewrites [*] to [%] before the pattern reaches SQL. *)
Fixpoint star_to_percent (p : string) : string :=
  match p with
  | EmptyString => EmptyString
  | String c p' =>
      String (if Ascii.eqb c "*" then "%"%char else c) (star_to_percent p')
  end.

(** Reading of a [LIKE] pattern; the backslash quotes the next character,
    and a pattern that ends in a lone backslash has no reading. *)
Fixpoint tokens (p : string) : option (list Tok) :=
  match p with
  | EmptyString => Some []
  | String c p' =>
      if Ascii.eqb c "\" then
        match p' with
        | EmptyString => None
        | String d p'' => option_map (cons (TLit d)) (tokens p'')
        end
      else if Ascii.eqb c "%" then option_map (cons TAny) (tokens p')
      else if Ascii.eqb c "_" then option_map (cons TOne) (tokens p')
      else option_map (cons (TLit c)) (tokens p')
  end.

Fixpoint like (p : list Tok) : string -> bool :=
  match p with
  | [] => fun s => match s with EmptyString => true | _ => false end
  | TAny :: p' =>
      fix skip (s : string) : bool :=
        like p' s || match s with
                     | EmptyString => false
                     | String _ s' => skip s'
                     end
  | TOne :: p' =>
      fun s => match s with
               | EmptyString => false
               | String _ s' => like p' s'
               end
  | TLit c :: p' =>
      fun s => match s with
               | EmptyString => false
               | String d s' => Ascii.eqb (lower c) (lower d) && like p' s'
               end
  end.

(** [column ILIKE pattern] as the store evaluates the [.ilike] filter. *)
Definition ilike (pattern value : string) : bool :=
  match tokens (star_to_percent pattern) with
  | Some p => like p value
  | None => false
  end.

(** The characters that [.ilike] does not take literally. *)
Definition is_meta (c : ascii) : bool :=
  Ascii.eqb c "%" || Ascii.eqb c "_" || Ascii.eqb c "\" || Ascii.eqb c "*".

Fixpoint plain (p : string) : bool :=
  match p with
  | EmptyString => true
  | String c p' => negb (is_meta c) && plain p'
  end.

Definition mem (x : string) (l : list string) : bool :=
  existsb (String.eqb x) l.

Definition service_sat (f : ServiceFilter) (s : StoredService) : bool :=
  match f with
  | IsActiveEq b => Bool.eqb (is_active s) b
  | CategoryIlike p => ilike p (Service.category (row s))
  | CityEq c => String.eqb (Service.city (row s)) c
  end.

Definition booking_sat (f : BookingFilter) (b : Booking.t) : bool :=
  match f with
  | ServiceIdEq s => String.eqb (Booking.service_id b) s
  | CustomerIdEq c => String.eqb (Booking.customer_id b) c
  | StatusIn l => mem (Booking.status b) l
  end.

(** ** The store's replies *)

(** The object every awaited query resolves to: [{ data, error }]. *)
Record Reply (A : Type) := {
  data : option A;
  error : option Thrown
}.
Arguments data {A} r.
Arguments error {A} r.

(** The reply of a call over a link, given the rows a working store has. *)
Definition over {A} (l : Link) (table : string) (rows : A) : Res (Reply A) :=
  match l with
  | Up => Val {| data := Some rows; error := None |}
  | Failing => Val {| data := None; error := Some (PostgrestError table) |}
  | Throwing => Exn (Rejection table)
  end.

Definition run_services (q : list ServiceFilter) (t : list StoredService)
  : list Service.t :=
  map row (filter (fun s => forallb (fun f => service_sat f s) q) t).

Definition run_profiles (ids : list string) (t : list Profile.t)
  : list Profile.t :=
  filter (fun p => mem (Profile.id p) ids) t.

Definition run_bookings (q : list BookingFilter) (t : list Booking.t)
  : list Booking.t :=
  filter (fun b => forallb (fun f => booking_sat f b) q) t.

Definition select_services (q : list ServiceFilter) : M (Reply (list Service.t)) :=
  fun w =>
    (over (services_select (net w)) "services" (run_services q (services w)),
     set_trace (trace w ++ [Store (SelectServices q)]) w).

Definition select_profiles (ids : list string) : M (Reply (list Profile.t)) :=
  fun w =>
    (over (profiles_select (net w)) "profiles" (run_profiles ids (profiles w)),
     set_trace (trace w ++ [Store (SelectProfiles ids)]) w).

Definition select_bookings (q : list BookingFilter) : M (Reply (list Booking.t)) :=
  fun w =>
    (over (bookings_select (net w)) "bookings" (run_bookings q (bookings w)),
     set_trace (trace w ++ [Store (SelectBookings q)]) w).

(** The key of a new row: one more than every key in the table. *)
Definition fresh_id (t : list Booking.t) : nat :=
  S (list_max (map Booking.id t)).

Definition stored (k : nat) (d : Draft.t) : Booking.t :=
  {| Booking.id := k;
     Booking.service_id := Draft.service_id d;
     Booking.customer_id := Draft.customer_id d;
     Booking.provider_id := Draft.provider_id d;
     Booking.status := Draft.status d;
     Booking.booking_date := Draft.booking_date d |}.

(** [.insert([d]).select()]: the table grows only when the call goes
    through, and the reply then carries the row as stored. *)
Definition insert_booking (d : Draft.t) : M (Reply (list Booking.t)) :=
  fun w =>
    let w1 := set_trace (trace w ++ [Store (InsertBooking d)]) w in
    let b := stored (fresh_id (bookings w)) d in
    match bookings_insert (net w) with
    | Up => (over Up "bookings" [b], set_bookings (bookings w ++ [b]) w1)
    | l => (over l "bookings" [b], w1)
    end.

(** ** The page *)

Definition get_user : M (option User) := fun w => (Val (user w), w).
Definition get_view : M ViewState := fun w => (Val (view w), w).
Definition now : M string := fun w => (Val (clock w), w).

Definition setSelectedCategory (c : option string) : M unit :=
  fun w => (Val tt, set_view {| selectedCategory := c;
                                selectedCity := selectedCity (view w) |} w).

Definition setSelectedCity (c : option string) : M unit :=
  fun w => (Val tt, set_view {| selectedCategory := selectedCategory (view w);
                                selectedCity := c |} w).

(** JavaScript's test [if (s)] on a [string | null]. *)
Definition truthy (s : option string) : bool :=
  match s with
  | Some (String _ _) => true
  | _ => false
  end.

(** The reasons for which a booking request is turned down before the
    insertion, and the toast that tells each of them. *)
Inductive Reason := Unauthenticated | SelfBooking | AlreadyBooked.

Definition rejected (r : Reason) : ToastMsg :=
  {| toast_title := "Error";
     toast_description :=
       match r with
       | Unauthenticated => "Please login to book a service"
       | SelfBooking => "You cannot book your own service"
       | AlreadyBooked => "You already have an active booking for this service"
       end;
     destructive := true |}.

Definition booking_sent : ToastMsg :=
  {| toast_title := "Success";
     toast_description := "Booking request sent successfully";
     destructive := false |}.

Definition booking_failed : ToastMsg :=
  {| toast_title := "Error";
     toast_description := "Failed to create booking. Please try again.";
     destructive := true |}.

(** The filters the listing query is built from (source lines 36-55). *)
Definition services_query (v : ViewState) : list ServiceFilter :=
  let query := [IsActiveEq true] in
  let query :=
    match selectedCategory v with
    | Some c => if truthy (Some c) then query ++ [CategoryIlike c] else query
    | None => query
    end in
  let query :=
    match selectedCity v with
    | Some c => if truthy (Some c) then query ++ [CityEq c] else query
    | None => query
    end in
  query.

(** [providersData?.find(p => p.id === service.provider_id)]. *)
Definition find_provider (providersData : option (list Profile.t))
  (service : Service.t) : option Profile.t :=
  match providersData with
  | Some ps =>
      find (fun p => String.eqb (Profile.id p) (Service.provider_id service)) ps
  | None => None
  end.

Definition providerIds (servicesData : list Service.t) : list string :=
  map Service.provider_id servicesData.

Definition servicesWithProviders (servicesData : list Service.t)
  (providersData : option (list Profile.t)) : list ListingView.t :=
  map (fun service =>
         {| ListingView.service := service;
            ListingView.provider := find_provider providersData service |})
      servicesData.

(** The [queryFn] of the services query (source lines 33-93). *)
Definition queryFn : M (list ListingView.t) :=
  try_catch
    (v <- get_view ;;
     r <- select_services (services_query v) ;;
     match error r with
     | Some servicesError =>
         console_error "Services query error:" ;; throw servicesError
     | None =>
         match data r with
         | Some (s :: rest) =>
             let servicesData := s :: rest in
             p <- select_profiles (providerIds servicesData) ;;
             match error p with
             | Some providersError =>
                 console_error "Providers query error:" ;; throw providersError
             | None =>
                 let joined := servicesWithProviders servicesData (data p) in
                 console_log "Found services:" ;;
                 ret joined
             end
         | _ => ret []
         end
     end)
    (fun _ => console_error "Query error:" ;; ret []).

(** The [mutationFn] of [createBooking] (source lines 98-114). *)
Definition mutationFn (serviceId providerId : string)
  : M (option (list Booking.t)) :=
  u <- get_user ;;
  match u with
  | None => throw (JsError "User not authenticated")
  | Some u =>
      t <- now ;;
      r <- insert_booking {| Draft.service_id := serviceId;
                             Draft.customer_id := user_id u;
                             Draft.provider_id := providerId;
                             Draft.status := "pending";
                             Draft.booking_date := t |} ;;
      match error r with
      | Some e => throw e
      | None => ret (data r)
      end
  end.

Definition onSuccess : M unit :=
  invalidateQueries "user-bookings" ;;
  invalidateQueries "customer-bookings" ;;
  toast booking_sent.

Definition onError : M unit :=
  console_error "Booking error:" ;;
  toast booking_failed.

(** [createBooking.mutate] run to settlement: runs [mutationFn], keeps
    what it settled to in the mutation object and runs the matching
    callback; nothing is thrown back at the caller. The source fires the
    mutation without awaiting it (line 177), so [handleBookService]
    below is a call together with the settlement of the mutation it
    fired; requests that overlap are composed from [bookingCheck] and
    [mutate]. *)
Definition mutate (serviceId providerId : string) : M unit :=
  fun w =>
    match mutationFn serviceId providerId w with
    | (Val d, w') => onSuccess (set_mutation (Succeeded d) w')
    | (Exn e, w') => onError (set_mutation (Errored e) w')
    end.

(** [handleCategoryClick] (source lines 134-138). *)
Definition handleCategoryClick (categoryName : string) : M unit :=
  console_log "Selected category:" ;;
  setSelectedCategory (Some categoryName) ;;
  setSelectedCity None.

Definition active_statuses : list string := ["pending"; "accepted"].

(** [handleBookService] (source lines 140-181). *)
Definition handleBookService (serviceId providerId : string) : M unit :=
  u <- get_user ;;
  match u with
  | None => toast (rejected Unauthenticated)
  | Some u =>
      if String.eqb (user_id u) providerId then toast (rejected SelfBooking)
      else
        try_catch
          (r <- select_bookings [ServiceIdEq serviceId;
                                 CustomerIdEq (user_id u);
                                 StatusIn active_statuses] ;;
           match data r with
           | Some (_ :: _) => toast (rejected AlreadyBooked)
           | _ => mutate serviceId providerId
           end)
          (fun _ => console_error "Booking check error:")
  end.

(** ** Sample data *)

Module Sample.

Definition cleaning : Service.t :=
  {| Service.id := "1"; Service.title := "Deep clean";
     Service.description := None; Service.price := 500%Z;
     Service.category := "Cleaning"; Service.city := "Pune";
     Service.provider_id := "P1" |}.

Definition windows : Service.t :=
  {| Service.id := "2"; Service.title := "Window wash";
     Service.description := Some "Inside and out"; Service.price := 300%Z;
     Service.category := "Cleaning"; Service.city := "Mumbai";
     Service.provider_id := "P1" |}.

Definition haircut : Service.t :=
  {| Service.id := "3"; Service.title := "Trim";
     Service.description := None; Service.price := 150%Z;
     Service.category := "Haircuts"; Service.city := "Pune";
     Service.provider_id := "P2" |}.

Definition asha : Profile.t :=
  {| Profile.id := "P1"; Profile.full_name := "Asha" |}.

Definition pending_booking : Booking.t :=
  {| Booking.id := 1; Booking.service_id := "1";
     Booking.customer_id := "C9"; Booking.provider_id := "P1";
     Booking.status := "pending";
     Booking.booking_date := "2025-01-01T00:00:00.000Z" |}.

Definition all_up : Net :=
  {| services_select := Up; profiles_select := Up;
     bookings_select := Up; bookings_insert := Up |}.

(** Three active services of two providers, one of them without a
    profile; customer [C9] is signed in and has booked nothing. *)
Definition world : World :=
  {| services := [ {| row := cleaning; is_active := true |};
                   {| row := windows; is_active := true |};
                   {| row := haircut; is_active := true |} ];
     profiles := [asha];
     bookings := [];
     net := all_up;
     clock := "2025-01-02T10:00:00.000Z";
     user := Some {| user_id := "C9" |};
     view := unfiltered;
     createBooking := Idle;
     trace := [] |}.

Definition with_net (n : Net) (w : World) : World :=
  {| services := services w; profiles := profiles w; bookings := bookings w;
     net := n; clock := clock w; user := user w; view := view w;
     createBooking := createBooking w; trace := trace w |}.

Definition with_user (u : option User) (w : World) : World :=
  {| services := services w; profiles := profiles w; bookings := bookings w;
     net := net w; clock := clock w; user := u; view := view w;
     createBooking := createBooking w; trace := trace w |}.

(** The duplicate check's read is answered with an error. *)
Definition read_fails : Net :=
  {| services_select := Up; profiles_select := Up;
     bookings_select := Failing; bookings_insert := Up |}.

(** The insertion of a booking is answered with an error. *)
Definition insert_fails : Net :=
  {| services_select := Up; profiles_select := Up;
     bookings_select := Up; bookings_insert := Failing |}.

(** The listing fetch is answered with an error. *)
Definition listing_fails : Net :=
  {| services_select := Failing; profiles_select := Up;
     bookings_select := Up; bookings_insert := Up |}.

(** The provider lookup is answered with an error. *)
Definition lookup_fails : Net :=
  {| services_select := Up; profiles_select := Failing;
     bookings_select := Up; bookings_insert := Up |}.

(** The same world after [C9] has asked for service [1]. *)
Definition booked : World := set_bookings [pending_booking] world.

End Sample.

(** ** Notions the statements use *)

(** An active booking has status [pending] or [accepted]. *)
Definition active (b : Booking.t) : bool :=
  String.eqb (Booking.status b) "pending"
  || String.eqb (Booking.status b) "accepted".

(** The active bookings of a (service, customer) pair in a table. *)
Definition active_for (serviceId customerId : string) (t : list Booking.t)
  : list Booking.t :=
  filter (fun b => String.eqb (Booking.service_id b) serviceId
                   && String.eqb (Booking.customer_id b) customerId
                   && active b) t.

(** Invariant I1 for one pair: at most one active booking. *)
Definition at_most_one_active (serviceId customerId : string)
  (t : list Booking.t) : Prop :=
  length (active_for serviceId customerId t) <= 1.

(** The row a request for a service is to store. *)
Definition pending_draft (serviceId customerId providerId date : string)
  : Draft.t :=
  {| Draft.service_id := serviceId;
     Draft.customer_id := customerId;
     Draft.provider_id := providerId;
     Draft.status := "pending";
     Draft.booking_date := date |}.

(** The duplicate check of [handleBookService] as a query. *)
Definition duplicate_check (serviceId customerId : string)
  : list BookingFilter :=
  [ServiceIdEq serviceId; CustomerIdEq customerId; StatusIn active_statuses].

(** The world as the store's log shows one more request. *)
Definition asked (r : Request) (w : World) : World :=
  set_trace (trace w ++ [Store r]) w.

(** The requests to the store in a trace, oldest first. *)
Fixpoint requests (t : list Event) : list Request :=
  match t with
  | [] => []
  | Store r :: t' => r :: requests t'
  | _ :: t' => requests t'
  end.

(** The id lists of the provider lookups in a trace. *)
Fixpoint lookups (t : list Event) : list (list string) :=
  match t with
  | [] => []
  | Store (SelectProfiles ids) :: t' => ids :: lookups t'
  | _ :: t' => lookups t'
  end.

(** A filter value that is there: neither [null] nor the empty string. *)
Definition present (s : option string) : option string :=
  if truthy s then s else None.

(** The listing filter in the spec's words: the service is active, its
    category equals the chosen one up to case, its city is the chosen
    one; a filter that is absent is not applied. *)
Definition listed (v : ViewState) (s : StoredService) : bool :=
  is_active s
  && match present (selectedCategory v) with
     | Some c => eq_ci (Service.category (row s)) c
     | None => true
     end
  && match present (selectedCity v) with
     | Some c => String.eqb (Service.city (row s)) c
     | None => true
     end.

(** A pattern read character by character, with no wildcard in it. *)
Fixpoint literals (p : string) : list Tok :=
  match p with
  | EmptyString => []
  | String c p' => TLit c :: literals p'
  end.

(** The chosen category, when there is one, has none of the characters
    that [.ilike] reads as a wildcard or as a quote. *)
Definition category_plain (v : ViewState) : bool :=
  match present (selectedCategory v) with
  | Some c => plain c
  | None => true
  end.

(** The services the listing fetch of a world returns when it works. *)
Definition fetched (w : World) : list Service.t :=
  run_services (services_query (view w)) (services w).

(** Both fetches of the listing query go through; the provider lookup is
    not made when no service matches. *)
Definition fetches_succeed (w : World) : Prop :=
  services_select (net w) = Up
  /\ (fetched w = [] \/ profiles_select (net w) = Up).

(** ** The rest of the page *)

(** The category cards of the page (source lines 12-19). *)
Record Category := {
  category_id : nat;
  name : string;
  icon : string
}.

Definition categories : list Category :=
  [ {| category_id := 1; name := "Haircuts"; icon := "💇‍♂️" |};
    {| category_id := 2; name := "Home Repairs"; icon := "🔧" |};
    {| category_id := 3; name := "Cleaning"; icon := "🧹" |};
    {| category_id := 4; name := "Gardening"; icon := "🌱" |};
    {| category_id := 5; name := "Personal Training"; icon := "💪" |};
    {| category_id := 6; name := "Pet Care"; icon := "🐾" |} ].

(** The entries of the city select (source line 21). *)
Definition cities : list string := ["Mumbai"; "Pune"; "Bangalore"].

(** [onClick] of a category card (source line 223). *)
Definition categoryCard (c : Category) : M unit :=
  handleCategoryClick (name c).

(** [onValueChange] of the city select (source line 196). *)
Definition selectCity (c : string) : M unit := setSelectedCity (Some c).

(** [onClick] of "Back to Categories" (source line 239). *)
Definition backToCategories : M unit := setSelectedCategory None.

(** [onClick] of the "Book Now" button of a listed service (source
    line 264). *)
Definition bookNow (v : ListingView.t) : M unit :=
  handleBookService (Service.id (ListingView.service v))
                    (Service.provider_id (ListingView.service v)).

(** [handleBookService] up to the point where it fires the mutation
    (source lines 141-176): the three checks, with [true] when control
    reaches [createBooking.mutate] at line 177. *)
Definition bookingCheck (serviceId providerId : string) : M bool :=
  u <- get_user ;;
  match u with
  | None => toast (rejected Unauthenticated) ;; ret false
  | Some u =>
      if String.eqb (user_id u) providerId
      then toast (rejected SelfBooking) ;; ret false
      else
        try_catch
          (r <- select_bookings [ServiceIdEq serviceId;
                                 CustomerIdEq (user_id u);
                                 StatusIn active_statuses] ;;
           match data r with
           | Some (_ :: _) => toast (rejected AlreadyBooked) ;; ret false
           | _ => ret true
           end)
          (fun _ => console_error "Booking check error:" ;; ret false)
  end.



(** The toasts of a trace, oldest first. *)
Fixpoint toasts (t : list Event) : list ToastMsg :=
  match t with
  | [] => []
  | Toast m :: t' => m :: toasts t'
  | _ :: t' => toasts t'
  end.

(** The query keys invalidated in a trace, oldest first. *)
Fixpoint invalidations (t : list Event) : list string :=
  match t with
  | [] => []
  | Invalidate k :: t' => k :: invalidations t'
  | _ :: t' => invalidations t'
  end.

(** The ways a call of [handleBookService] can end, each with the world
    it leaves: the branches of source lines 140-181 and, behind
    [createBooking.mutate], of lines 98-131. *)
Inductive BookOutcome (w : World) (serviceId providerId : string)
  : World -> Prop :=
| SignedOut :
    user w = None ->
    BookOutcome w serviceId providerId
      (set_trace (trace w ++ [Toast (rejected Unauthenticated)]) w)
| OwnService (u : User) :
    user w = Some u ->
    user_id u = providerId ->
    BookOutcome w serviceId providerId
      (set_trace (trace w ++ [Toast (rejected SelfBooking)]) w)
| Duplicate (u : User) :
    user w = Some u ->
    user_id u <> providerId ->
    bookings_select (net w) = Up ->
    active_for serviceId (user_id u) (bookings w) <> [] ->
    BookOutcome w serviceId providerId
      (set_trace (trace w ++ [Store (SelectBookings
                                       (duplicate_check serviceId (user_id u)));
                              Toast (rejected AlreadyBooked)]) w)
| CheckRejected (u : User) :
    user w = Some u ->
    user_id u <> providerId ->
    bookings_select (net w) = Throwing ->
    BookOutcome w serviceId providerId
      (set_trace (trace w ++ [Store (SelectBookings
                                       (duplicate_check serviceId (user_id u)));
                              ConsoleError "Booking check error:"]) w)
| Booked (u : User) :
    user w = Some u ->
    user_id u <> providerId ->
    bookings_select (net w) = Failing
    \/ (bookings_select (net w) = Up
        /\ active_for serviceId (user_id u) (bookings w) = []) ->
    bookings_insert (net w) = Up ->
    let d := pending_draft serviceId (user_id u) providerId (clock w) in
    let b := stored (fresh_id (bookings w)) d in
    BookOutcome w serviceId providerId
      (set_trace (trace w ++ [Store (SelectBookings
                                       (duplicate_check serviceId (user_id u)));
                              Store (InsertBooking d);
                              Invalidate "user-bookings";
                              Invalidate "customer-bookings";
                              Toast booking_sent])
         (set_mutation (Succeeded (Some [b]))
            (set_bookings (bookings w ++ [b]) w)))
| NotStored (u : User) (e : Thrown) :
    user w = Some u ->
    user_id u <> providerId ->
    bookings_select (net w) = Failing
    \/ (bookings_select (net w) = Up
        /\ active_for serviceId (user_id u) (bookings w) = []) ->
    bookings_insert (net w) <> Up ->
    let d := pending_draft serviceId (user_id u) providerId (clock w) in
    BookOutcome w serviceId providerId
      (set_trace (trace w ++ [Store (SelectBookings
                                       (duplicate_check serviceId (user_id u)));
                              Store (InsertBooking d);
                              ConsoleError "Booking error:";
                              Toast booking_failed])
         (set_mutation (Errored e) w)).

(** ** The monad and the trace *)

Lemma requests_app (t u : list Event) :
  requests (t ++ u) = requests t ++ requests u.
Proof.
  induction t as [|e t IH]; simpl; [reflexivity|].
  destruct e; simpl; now rewrite IH.
Qed.

Lemma lookups_app (t u : list Event) :
  lookups (t ++ u) = lookups t ++ lookups u.
Proof.
  induction t as [|e t IH]; simpl; [reflexivity|].
  destruct e as [r| | | |]; simpl; try now rewrite IH.
  destruct r; simpl; now rewrite IH.
Qed.

(** ** Booking requests *)

(** Signed out, the handler is the one toast. *)
Lemma handleBookService_signed_out (w : World) (serviceId providerId : string) :
  user w = None ->
  handleBookService serviceId providerId w
  = (Val tt, set_trace (trace w ++ [Toast (rejected Unauthenticated)]) w).
Proof.
  intro Hu. unfold handleBookService, bind, get_user. simpl. now rewrite Hu.
Qed.

(** C8. With no signed-in user, [handleBookService] only shows the
    "please login" toast (Rejected(Unauthenticated)): the tables are left
    as they were and no request reaches the store; [mutationFn] itself
    throws before any request when there is no user. *)
Theorem handleBookService_unauthenticated :
  forall (w : World) (serviceId providerId : string),
    user w = None ->
    handleBookService serviceId providerId w
      = (Val tt, set_trace (trace w ++ [Toast (rejected Unauthenticated)]) w)
    /\ bookings (exec (handleBookService serviceId providerId) w) = bookings w
    /\ requests (trace (exec (handleBookService serviceId providerId) w))
       = requests (trace w)
    /\ mutationFn serviceId providerId w
       = (Exn (JsError "User not authenticated"), w).
Proof.
  intros w sid pid Hu.
  assert (E : handleBookService sid pid w
              = (Val tt, set_trace (trace w ++ [Toast (rejected Unauthenticated)]) w)).
  { now apply handleBookService_signed_out. }
  unfold exec. rewrite E. simpl.
  repeat split.
  - rewrite requests_app. simpl. now rewrite app_nil_r.
  - unfold mutationFn, bind, get_user. simpl. now rewrite Hu.
Qed.

Lemma handleBookService_unauthenticated_witness :
  let w := Sample.with_user None Sample.booked in
  handleBookService "1" "P1" w
    = (Val tt, set_trace (trace w ++ [Toast (rejected Unauthenticated)]) w)
  /\ bookings (exec (handleBookService "1" "P1") w) = bookings w
  /\ requests (trace (exec (handleBookService "1" "P1") w))
     = requests (trace w)
  /\ mutationFn "1" "P1" w = (Exn (JsError "User not authenticated"), w).
Proof.
  exact (handleBookService_unauthenticated
           (Sample.with_user None Sample.booked) "1" "P1" eq_refl).
Defined.

Lemma run_bookings_duplicate_check (serviceId customerId : string)
  (t : list Booking.t) :
  run_bookings (duplicate_check serviceId customerId) t
  = active_for serviceId customerId t.
Proof.
  unfold run_bookings, active_for. apply filter_ext. intro b.
  unfold active. simpl.
  destruct (Booking.service_id b =? serviceId)%string,
           (Booking.customer_id b =? customerId)%string,
           (Booking.status b =? "pending")%string,
           (Booking.status b =? "accepted")%string; reflexivity.
Qed.

(** Past the two identity checks the handler is the guarded block. *)
Lemma handleBookService_signed_in (w : World) (u : User)
  (serviceId providerId : string) :
  user w = Some u ->
  user_id u <> providerId ->
  handleBookService serviceId providerId w
  = try_catch
      (r <- select_bookings (duplicate_check serviceId (user_id u)) ;;
       match data r with
       | Some (_ :: _) => toast (rejected AlreadyBooked)
       | _ => mutate serviceId providerId
       end)
      (fun _ => console_error "Booking check error:") w.
Proof.
  intros Hu Hne. unfold handleBookService at 1, bind at 1, get_user.
  rewrite Hu. apply String.eqb_neq in Hne. now rewrite Hne.
Qed.

(** The duplicate check answered with rows: the request is turned down. *)
Lemma handleBookService_duplicate_seen (w : World) (u : User)
  (serviceId providerId : string) :
  user w = Some u ->
  user_id u <> providerId ->
  bookings_select (net w) = Up ->
  active_for serviceId (user_id u) (bookings w) <> [] ->
  handleBookService serviceId providerId w
  = (Val tt,
     set_trace (trace w ++ [Store (SelectBookings
                                     (duplicate_check serviceId (user_id u)));
                            Toast (rejected AlreadyBooked)]) w).
Proof.
  intros Hu Hne Hup Hact.
  rewrite (handleBookService_signed_in w u) by assumption.
  unfold try_catch, bind, select_bookings. rewrite Hup. simpl.
  rewrite run_bookings_duplicate_check.
  destruct (active_for serviceId (user_id u) (bookings w)) as [|b l];
    [contradiction|].
  unfold toast, emit, set_trace. simpl. now rewrite <- app_assoc.
Qed.

(** The duplicate check found nothing, or answered with an error: the
    handler goes on to [createBooking.mutate]. *)
Lemma handleBookService_proceeds (w : World) (u : User)
  (serviceId providerId : string) :
  user w = Some u ->
  user_id u <> providerId ->
  (bookings_select (net w) = Failing
   \/ (bookings_select (net w) = Up
       /\ active_for serviceId (user_id u) (bookings w) = [])) ->
  handleBookService serviceId providerId w
  = mutate serviceId providerId
      (asked (SelectBookings (duplicate_check serviceId (user_id u))) w).
Proof.
  intros Hu Hne Hsel.
  rewrite (handleBookService_signed_in w u) by assumption.
  unfold try_catch, bind, select_bookings.
  destruct Hsel as [Hf | [Hup Hnone]].
  - rewrite Hf. simpl. fold (asked (SelectBookings (duplicate_check serviceId (user_id u))) w).
    destruct (mutate serviceId providerId _) as [[[]|e] w'] eqn:E; try reflexivity.
    exfalso. revert E. unfold mutate, onSuccess, onError, bind, toast,
      console_error, invalidateQueries, emit.
    destruct (mutationFn _ _ _) as [[d|e'] w'']; simpl; discriminate.
  - rewrite Hup. simpl. rewrite run_bookings_duplicate_check, Hnone.
    fold (asked (SelectBookings (duplicate_check serviceId (user_id u))) w).
    destruct (mutate serviceId providerId _) as [[[]|e] w'] eqn:E; try reflexivity.
    exfalso. revert E. unfold mutate, onSuccess, onError, bind, toast,
      console_error, invalidateQueries, emit.
    destruct (mutationFn _ _ _) as [[d|e'] w'']; simpl; discriminate.
Qed.

(** [mutate] when the store takes the row. *)
Lemma mutate_stored (w : World) (u : User) (serviceId providerId : string) :
  user w = Some u ->
  bookings_insert (net w) = Up ->
  let d := pending_draft serviceId (user_id u) providerId (clock w) in
  let b := stored (fresh_id (bookings w)) d in
  let w' := exec (mutate serviceId providerId) w in
  result (mutate serviceId providerId) w = Val tt
  /\ bookings w' = bookings w ++ [b]
  /\ createBooking w' = Succeeded (Some [b])
  /\ trace w' = trace w ++ [Store (InsertBooking d);
                            Invalidate "user-bookings";
                            Invalidate "customer-bookings";
                            Toast booking_sent].
Proof.
  intros Hu Hup. unfold exec, result, mutate, mutationFn, bind, get_user, now,
    insert_booking. rewrite Hu, Hup. simpl.
  repeat split. now rewrite <- !app_assoc.
Qed.

(** [mutate] when the store answers the insertion with an error. *)
Lemma mutate_refused (w : World) (u : User) (serviceId providerId : string) :
  user w = Some u ->
  bookings_insert (net w) <> Up ->
  let w' := exec (mutate serviceId providerId) w in
  bookings w' = bookings w
  /\ (exists e, createBooking w' = Errored e)
  /\ trace w' = trace w ++ [Store (InsertBooking
                                     (pending_draft serviceId (user_id u)
                                                    providerId (clock w)));
                            ConsoleError "Booking error:";
                            Toast booking_failed].
Proof.
  intros Hu Hdown. unfold exec, mutate, mutationFn, bind, get_user, now,
    insert_booking. rewrite Hu.
  destruct (bookings_insert (net w)); [contradiction| |]; simpl;
    (repeat split; [eexists; reflexivity | now rewrite <- !app_assoc]).
Qed.

Lemma active_for_app (serviceId customerId : string) (t u : list Booking.t) :
  active_for serviceId customerId (t ++ u)
  = active_for serviceId customerId t ++ active_for serviceId customerId u.
Proof. apply filter_app. Qed.

Lemma active_for_stored (serviceId customerId providerId date : string)
  (k : nat) :
  active_for serviceId customerId
    [stored k (pending_draft serviceId customerId providerId date)]
  = [stored k (pending_draft serviceId customerId providerId date)].
Proof.
  unfold active_for, active. simpl. now rewrite !String.eqb_refl.
Qed.

(** C1, as the code has it. A signed-in customer who is not the provider
    and has an active booking of the service asks for it again, and the
    read of the duplicate check is answered with rows. The handler shows
    the "already booked" toast (Rejected(AlreadyBooked)); the only
    request to the store is that read, the bookings are as they were, and
    invariant I1 holds afterwards if it held before. *)
Theorem handleBookService_rejects_duplicate :
  forall (w : World) (u : User) (serviceId providerId : string),
    user w = Some u ->
    user_id u <> providerId ->
    bookings_select (net w) = Up ->
    active_for serviceId (user_id u) (bookings w) <> [] ->
    let w' := exec (handleBookService serviceId providerId) w in
    result (handleBookService serviceId providerId) w = Val tt
    /\ trace w' = trace w ++ [Store (SelectBookings
                                       (duplicate_check serviceId (user_id u)));
                              Toast (rejected AlreadyBooked)]
    /\ bookings w' = bookings w
    /\ createBooking w' = createBooking w
    /\ (at_most_one_active serviceId (user_id u) (bookings w) ->
        at_most_one_active serviceId (user_id u) (bookings w')).
Proof.
  intros w u sid pid Hu Hne Hup Hact w'. subst w'. unfold exec, result.
  rewrite (handleBookService_duplicate_seen w u sid pid Hu Hne Hup Hact).
  simpl. repeat split. auto.
Qed.

Lemma handleBookService_rejects_duplicate_witness :
  bookings (exec (handleBookService "1" "P1") Sample.booked)
  = [Sample.pending_booking]
  /\ trace (exec (handleBookService "1" "P1") Sample.booked)
     = [Store (SelectBookings (duplicate_check "1" "C9"));
        Toast (rejected AlreadyBooked)].
Proof.
  destruct (handleBookService_rejects_duplicate Sample.booked
              {| user_id := "C9" |} "1" "P1" eq_refl
              ltac:(discriminate) eq_refl ltac:(discriminate))
    as (_ & Ht & Hb & _).
  split; [exact Hb | exact Ht].
Defined.

(** C1 does not hold for every call: customer [C9] has a pending booking
    of service [1] and asks for it again naming [C9] as the provider; the
    identity check comes first, and the toast is the "own service" one,
    not the "already booked" one. *)
Lemma handleBookService_self_check_first :
  let w := Sample.booked in
  let w' := exec (handleBookService "1" "C9") w in
  user w = Some {| user_id := "C9" |}
  /\ active_for "1" "C9" (bookings w) = [Sample.pending_booking]
  /\ trace w' = [Toast (rejected SelfBooking)]
  /\ ~ In (Toast (rejected AlreadyBooked)) (trace w').
Proof.
  cbv zeta. repeat split.
  intros [H|[]]; discriminate H.
Qed.

(** The duplicate check fails open. Customer [C9] has a pending booking
    of service [1]; the read of the duplicate check is answered with an
    error. The handler does not show the "already booked" toast: it
    inserts a second pending booking for the pair, and invariant I1,
    which held before the call, no longer holds. *)
Lemma handleBookService_duplicate_unseen_on_failed_read :
  let w := Sample.with_net Sample.read_fails Sample.booked in
  let w' := exec (handleBookService "1" "P1") w in
  active_for "1" "C9" (bookings w) = [Sample.pending_booking]
  /\ at_most_one_active "1" "C9" (bookings w)
  /\ ~ In (Toast (rejected AlreadyBooked)) (trace w')
  /\ length (bookings w') = 2
  /\ length (active_for "1" "C9" (bookings w')) = 2
  /\ ~ at_most_one_active "1" "C9" (bookings w').
Proof.
  cbv zeta. unfold at_most_one_active. vm_compute.
  repeat split; try lia.
  intros [H|[H|[H|[H|[H|[]]]]]]; discriminate H.
Qed.

(** What [mutate] does to the table for a customer who is not the
    provider: nothing, or one more booking, which is not a self-booking. *)
Lemma mutate_outcome (w : World) (u : User) (serviceId providerId : string) :
  user w = Some u ->
  user_id u <> providerId ->
  bookings (exec (mutate serviceId providerId) w) = bookings w
  \/ exists b,
      bookings (exec (mutate serviceId providerId) w) = bookings w ++ [b]
      /\ Booking.provider_id b = providerId
      /\ Booking.customer_id b <> Booking.provider_id b.
Proof.
  intros Hu Hne.
  destruct (bookings_insert (net w)) eqn:Hins.
  - right. destruct (mutate_stored w u serviceId providerId Hu Hins)
      as (_ & Hb & _).
    eexists. split; [exact Hb|]. simpl. auto.
  - left. apply (mutate_refused w u); [assumption|congruence].
  - left. apply (mutate_refused w u); [assumption|congruence].
Qed.

(** C2. When the signed-in customer is the provider of the service,
    [handleBookService] only shows the "own service" toast
    (Rejected(SelfBooking)) and reaches the store with nothing; and
    whatever the arguments, a call leaves the bookings as they were or
    adds one booking whose customer is not its provider. *)
Theorem handleBookService_no_self_booking :
  forall (w : World) (serviceId providerId : string),
    (forall u, user w = Some u -> user_id u = providerId ->
       handleBookService serviceId providerId w
       = (Val tt, set_trace (trace w ++ [Toast (rejected SelfBooking)]) w))
    /\ (bookings (exec (handleBookService serviceId providerId) w) = bookings w
        \/ exists b,
            bookings (exec (handleBookService serviceId providerId) w)
            = bookings w ++ [b]
            /\ Booking.provider_id b = providerId
            /\ Booking.customer_id b <> Booking.provider_id b).
Proof.
  intros w sid pid. split.
  - intros u Hu Heq. unfold handleBookService, bind, get_user. simpl.
    rewrite Hu. apply String.eqb_eq in Heq. now rewrite Heq.
  - unfold exec. destruct (user w) as [u|] eqn:Hu.
    2:{ left. now rewrite handleBookService_signed_out. }
    destruct (String.eqb_spec (user_id u) pid) as [Heq|Hne].
    { left. unfold handleBookService, bind, get_user. simpl.
      rewrite Hu. apply String.eqb_eq in Heq. now rewrite Heq. }
    destruct (bookings_select (net w)) eqn:Hsel.
    + destruct (active_for sid (user_id u) (bookings w)) as [|b0 l] eqn:Hact.
      * rewrite (handleBookService_proceeds w u) by auto.
        exact (mutate_outcome (asked _ w) u sid pid Hu Hne).
      * left. rewrite (handleBookService_duplicate_seen w u); auto.
        rewrite Hact. discriminate.
    + rewrite (handleBookService_proceeds w u) by auto.
      exact (mutate_outcome (asked _ w) u sid pid Hu Hne).
    + left. rewrite (handleBookService_signed_in w u) by assumption.
      unfold try_catch, bind, select_bookings. now rewrite Hsel.
Qed.

Lemma handleBookService_no_self_booking_witness :
  let w := Sample.with_user (Some {| user_id := "P1" |}) Sample.world in
  handleBookService "1" "P1" w
  = (Val tt, set_trace (trace w ++ [Toast (rejected SelfBooking)]) w).
Proof.
  exact (proj1 (handleBookService_no_self_booking
                  (Sample.with_user (Some {| user_id := "P1" |}) Sample.world)
                  "1" "P1")
               {| user_id := "P1" |} eq_refl eq_refl).
Defined.

(** C4, as the code has it. A signed-in customer who is not the provider
    and has no active booking of the service asks for it, and the read of
    the duplicate check does not reject. When the store takes the
    insertion, the table gains exactly one booking, for that service,
    customer and provider, with status [pending] and [booking_date] the
    current time, and the mutation settles with that stored booking as
    its data. When the store does not take it, the table is as it was,
    the mutation settles with the error and the failure toast is shown. *)
Theorem handleBookService_creates_pending :
  forall (w : World) (u : User) (serviceId providerId : string),
    user w = Some u ->
    user_id u <> providerId ->
    active_for serviceId (user_id u) (bookings w) = [] ->
    bookings_select (net w) <> Throwing ->
    let w' := exec (handleBookService serviceId providerId) w in
    let d := pending_draft serviceId (user_id u) providerId (clock w) in
    (bookings_insert (net w) = Up ->
     exists b,
       bookings w' = bookings w ++ [b]
       /\ Booking.service_id b = serviceId
       /\ Booking.customer_id b = user_id u
       /\ Booking.provider_id b = providerId
       /\ Booking.status b = "pending"
       /\ Booking.booking_date b = clock w
       /\ createBooking w' = Succeeded (Some [b])
       /\ requests (trace w')
          = requests (trace w)
            ++ [SelectBookings (duplicate_check serviceId (user_id u));
                InsertBooking d])
    /\ (bookings_insert (net w) <> Up ->
        bookings w' = bookings w
        /\ (exists e, createBooking w' = Errored e)
        /\ trace w' = trace w
                      ++ [Store (SelectBookings
                                   (duplicate_check serviceId (user_id u)));
                          Store (InsertBooking d);
                          ConsoleError "Booking error:";
                          Toast booking_failed]).
Proof.
  intros w u sid pid Hu Hne Hnone Hsel w' d. subst w' d. unfold exec.
  rewrite (handleBookService_proceeds w u) by
    (try assumption; destruct (bookings_select (net w)); auto; contradiction).
  split; intro Hins.
  - destruct (mutate_stored
                (asked (SelectBookings (duplicate_check sid (user_id u))) w)
                u sid pid Hu Hins) as (_ & Hb & Hm & Ht).
    eexists. split; [exact Hb|]. repeat split; try reflexivity.
    + exact Hm.
    + unfold exec in Ht. rewrite Ht. simpl.
      rewrite <- app_assoc, requests_app. reflexivity.
  - destruct (mutate_refused
                (asked (SelectBookings (duplicate_check sid (user_id u))) w)
                u sid pid Hu Hins) as (Hb & Hm & Ht).
    unfold exec in *. split; [exact Hb|]. split; [exact Hm|].
    rewrite Ht. simpl. now rewrite <- app_assoc.
Qed.

Lemma handleBookService_creates_pending_witness :
  exists b,
    bookings (exec (handleBookService "1" "P1") Sample.world) = [b]
    /\ Booking.status b = "pending"
    /\ Booking.booking_date b = clock Sample.world
    /\ createBooking (exec (handleBookService "1" "P1") Sample.world)
       = Succeeded (Some [b]).
Proof.
  destruct (proj1 (handleBookService_creates_pending Sample.world
                     {| user_id := "C9" |} "1" "P1" eq_refl
                     ltac:(discriminate) eq_refl ltac:(discriminate))
                  eq_refl)
    as (b & Hb & _ & _ & _ & Hs & Hd & Hm & _).
  exists b. repeat split; assumption.
Defined.

(** The spec's scenario: [C9] asks for service [1] of provider [P1] twice
    in a row; the first request is stored as pending, the second is
    turned down as a duplicate and stores nothing. *)
Example book_twice :
  let w1 := exec (handleBookService "1" "P1") Sample.world in
  let w2 := exec (handleBookService "1" "P1") w1 in
  map Booking.status (bookings w1) = ["pending"]
  /\ bookings w2 = bookings w1
  /\ last (trace w2) (ConsoleLog "") = Toast (rejected AlreadyBooked).
Proof. cbv zeta. repeat split. Qed.

(** C4 does not hold for every allowed call: customer [C9] is signed in,
    is not provider [P1] and has booked nothing, but the store answers
    the insertion with an error; no booking is inserted and the mutation
    settles with the error. *)
Lemma handleBookService_insert_refused :
  let w := Sample.with_net Sample.insert_fails Sample.world in
  let w' := exec (handleBookService "1" "P1") w in
  user w = Some {| user_id := "C9" |}
  /\ active_for "1" "C9" (bookings w) = []
  /\ bookings w' = []
  /\ createBooking w' = Errored (PostgrestError "bookings")
  /\ In (Toast booking_failed) (trace w').
Proof.
  cbv zeta. repeat split. vm_compute. tauto.
Qed.

(** C10. A signed-in customer who is not the provider asks for a service
    while the read of the duplicate check is answered with an error and
    insertions go through. The handler shows no "already booked" toast
    and reports no error: it inserts a pending booking and shows the
    success toast, whatever the table holds; when the customer already
    had an active booking of the service, invariant I1 fails afterwards. *)
Theorem failed_read_bypasses_duplicate_check :
  forall (w : World) (u : User) (serviceId providerId : string),
    user w = Some u ->
    user_id u <> providerId ->
    bookings_select (net w) = Failing ->
    bookings_insert (net w) = Up ->
    let w' := exec (handleBookService serviceId providerId) w in
    let d := pending_draft serviceId (user_id u) providerId (clock w) in
    result (handleBookService serviceId providerId) w = Val tt
    /\ bookings w' = bookings w ++ [stored (fresh_id (bookings w)) d]
    /\ trace w' = trace w ++ [Store (SelectBookings
                                       (duplicate_check serviceId (user_id u)));
                              Store (InsertBooking d);
                              Invalidate "user-bookings";
                              Invalidate "customer-bookings";
                              Toast booking_sent]
    /\ (active_for serviceId (user_id u) (bookings w) <> [] ->
        ~ at_most_one_active serviceId (user_id u) (bookings w')).
Proof.
  intros w u sid pid Hu Hne Hsel Hins w' d. subst w' d. unfold exec, result.
  rewrite (handleBookService_proceeds w u) by auto.
  destruct (mutate_stored (asked (SelectBookings (duplicate_check sid (user_id u))) w)
              u sid pid Hu Hins) as (Hr & Hb & _ & Ht).
  unfold exec, result in *. simpl in Hb, Ht.
  split; [exact Hr|]. split; [exact Hb|]. split.
  - rewrite Ht. now rewrite <- app_assoc.
  - intros Hact. unfold at_most_one_active. rewrite Hb.
    rewrite active_for_app, active_for_stored, length_app. simpl.
    destruct (active_for sid (user_id u) (bookings w)); [contradiction|].
    simpl. lia.
Qed.

Lemma failed_read_bypasses_duplicate_check_witness :
  let w := Sample.with_net Sample.read_fails Sample.booked in
  active_for "1" "C9" (bookings w) <> []
  /\ length (bookings (exec (handleBookService "1" "P1") w)) = 2
  /\ ~ at_most_one_active "1" "C9"
         (bookings (exec (handleBookService "1" "P1") w)).
Proof.
  destruct (failed_read_bypasses_duplicate_check
              (Sample.with_net Sample.read_fails Sample.booked)
              {| user_id := "C9" |} "1" "P1" eq_refl
              ltac:(discriminate) eq_refl eq_refl)
    as (_ & Hb & _ & Hinv).
  assert (Hact : active_for "1" "C9"
                   (bookings (Sample.with_net Sample.read_fails Sample.booked))
                 <> []) by discriminate.
  split; [exact Hact|]. split.
  - rewrite Hb. reflexivity.
  - exact (Hinv Hact).
Defined.

(** ** The filter selection *)

(** C9. Choosing category A and then category B leaves the same filter
    selection as choosing B from the unfiltered selection: after a
    choice the selected category is the chosen one and no city is
    selected. *)
Theorem handleCategoryClick_resets :
  forall (w w0 : World) (A B : string),
    view (exec (handleCategoryClick B) (exec (handleCategoryClick A) w))
    = view (exec (handleCategoryClick B) (set_view unfiltered w0))
    /\ view (exec (handleCategoryClick B) w)
       = {| selectedCategory := Some B; selectedCity := None |}.
Proof.
  intros w w0 A B. split; reflexivity.
Qed.

(** ** Patterns without wildcards *)

Lemma plain_cons (c : ascii) (p : string) :
  plain (String c p) = true ->
  Ascii.eqb c "%" = false /\ Ascii.eqb c "_" = false
  /\ Ascii.eqb c "\" = false /\ Ascii.eqb c "*" = false /\ plain p = true.
Proof.
  simpl. unfold is_meta. intro H.
  apply andb_true_iff in H. destruct H as [Hm Hp].
  apply negb_true_iff in Hm.
  repeat (apply orb_false_iff in Hm; destruct Hm as [Hm ?]).
  auto.
Qed.

Lemma tokens_plain (p : string) :
  plain p = true -> tokens (star_to_percent p) = Some (literals p).
Proof.
  induction p as [|c p IH]; intro H; [reflexivity|].
  apply plain_cons in H. destruct H as (H1 & H2 & H3 & H4 & Hp).
  cbn [star_to_percent]. rewrite H4. cbn [tokens]. rewrite H3, H1, H2.
  rewrite (IH Hp). reflexivity.
Qed.

Lemma like_literals (p s : string) : like (literals p) s = eq_ci p s.
Proof.
  revert s. unfold eq_ci.
  induction p as [|c p IH]; intros [|d s]; simpl; try reflexivity.
  now rewrite IH.
Qed.

(** On a pattern without wildcards [.ilike] is equality up to case. *)
Lemma ilike_plain (p s : string) :
  plain p = true -> ilike p s = eq_ci s p.
Proof.
  intro H. unfold ilike. rewrite (tokens_plain p H), like_literals.
  unfold eq_ci. apply String.eqb_sym.
Qed.

(** ** The listing query *)

Lemma servicesWithProviders_services (rows : list Service.t)
  (providersData : option (list Profile.t)) :
  map ListingView.service (servicesWithProviders rows providersData) = rows.
Proof.
  unfold servicesWithProviders. rewrite map_map. simpl. apply map_id.
Qed.

Lemma servicesWithProviders_length (rows : list Service.t)
  (providersData : option (list Profile.t)) :
  length (servicesWithProviders rows providersData) = length rows.
Proof. unfold servicesWithProviders. apply length_map. Qed.

(** [find] gives [undefined] exactly when no fetched profile has the id. *)
Lemma find_provider_none (providersData : option (list Profile.t))
  (s : Service.t) :
  find_provider providersData s = None
  <-> forall p, In p (match providersData with Some ps => ps | None => [] end) ->
                Profile.id p <> Service.provider_id s.
Proof.
  destruct providersData as [ps|]; simpl; [|split; [intros _ p []|reflexivity]].
  split.
  - intros H p Hin Heq. apply (find_none _ _ H) in Hin.
    apply String.eqb_neq in Hin. contradiction.
  - intros H.
    destruct (find _ ps) as [p|] eqn:E; [|reflexivity].
    apply find_some in E. destruct E as [Hin Heq].
    apply String.eqb_eq in Heq. elim (H p Hin Heq).
Qed.

Lemma find_provider_some (providersData : option (list Profile.t))
  (s : Service.t) (p : Profile.t) :
  find_provider providersData s = Some p ->
  In p (match providersData with Some ps => ps | None => [] end)
  /\ Profile.id p = Service.provider_id s.
Proof.
  destruct providersData as [ps|]; simpl; [|discriminate].
  intro E. apply find_some in E. destruct E as [Hin Heq].
  apply String.eqb_eq in Heq. auto.
Qed.

Lemma mem_In (x : string) (l : list string) : mem x l = true <-> In x l.
Proof.
  unfold mem. rewrite existsb_exists. split.
  - intros (y & Hin & Heq). apply String.eqb_eq in Heq. now subst.
  - intro Hin. exists x. split; [assumption|apply String.eqb_refl].
Qed.

(** The batched lookup brings every profile a fetched service refers to. *)
Lemma run_profiles_covers (rows : list Service.t) (t : list Profile.t)
  (s : Service.t) (p : Profile.t) :
  In s rows -> In p t -> Profile.id p = Service.provider_id s ->
  In p (run_profiles (providerIds rows) t).
Proof.
  intros Hs Hp Heq. unfold run_profiles. apply filter_In. split; [assumption|].
  apply mem_In. rewrite Heq. unfold providerIds. now apply in_map.
Qed.

Lemma run_profiles_incl (ids : list string) (t : list Profile.t) (p : Profile.t) :
  In p (run_profiles ids t) -> In p t.
Proof. unfold run_profiles. intro H. now apply filter_In in H. Qed.

(** The fetch worked and matched nothing. *)
Lemma queryFn_no_rows (w : World) :
  services_select (net w) = Up ->
  fetched w = [] ->
  queryFn w = (Val [], asked (SelectServices (services_query (view w))) w).
Proof.
  intros Hup Hnone. unfold queryFn, try_catch, bind, get_view, select_services.
  rewrite Hup. simpl. fold (fetched w). now rewrite Hnone.
Qed.

(** Both fetches worked: the joined rows are returned. *)
Lemma queryFn_joined (w : World) :
  services_select (net w) = Up ->
  fetched w <> [] ->
  profiles_select (net w) = Up ->
  queryFn w
  = (Val (servicesWithProviders (fetched w)
            (Some (run_profiles (providerIds (fetched w)) (profiles w)))),
     set_trace (trace w ++ [Store (SelectServices (services_query (view w)));
                            Store (SelectProfiles (providerIds (fetched w)));
                            ConsoleLog "Found services:"]) w).
Proof.
  intros Hup Hrows Hpup.
  unfold queryFn, try_catch, bind, get_view, select_services, select_profiles.
  rewrite Hup. simpl. fold (fetched w).
  destruct (fetched w) as [|s rest] eqn:E; [contradiction|].
  simpl. rewrite Hpup. simpl.
  unfold set_trace. simpl. now rewrite <- !app_assoc.
Qed.

(** The listing fetch failed: the error is caught and [[]] returned. *)
Lemma queryFn_services_down (w : World) :
  services_select (net w) <> Up ->
  exists t,
    requests t = []
    /\ queryFn w
       = (Val [],
          set_trace (trace w ++ Store (SelectServices (services_query (view w)))
                     :: t ++ [ConsoleError "Query error:"]) w).
Proof.
  intro Hdown.
  unfold queryFn, try_catch, bind, get_view, select_services.
  destruct (services_select (net w)); [contradiction| |]; simpl.
  - exists [ConsoleError "Services query error:"]. split; [reflexivity|].
    unfold set_trace. simpl. now rewrite <- !app_assoc.
  - exists []. split; [reflexivity|].
    unfold set_trace. simpl. now rewrite <- !app_assoc.
Qed.

(** The provider lookup failed: the error is caught and [[]] returned,
    the fetched services with it. *)
Lemma queryFn_profiles_down (w : World) :
  services_select (net w) = Up ->
  fetched w <> [] ->
  profiles_select (net w) <> Up ->
  exists t,
    requests t = []
    /\ queryFn w
       = (Val [],
          set_trace (trace w ++ Store (SelectServices (services_query (view w)))
                     :: Store (SelectProfiles (providerIds (fetched w)))
                     :: t ++ [ConsoleError "Query error:"]) w).
Proof.
  intros Hup Hrows Hdown.
  unfold queryFn, try_catch, bind, get_view, select_services, select_profiles.
  rewrite Hup. simpl. fold (fetched w).
  destruct (fetched w) as [|s rest] eqn:E; [contradiction|].
  simpl.
  destruct (profiles_select (net w)); [contradiction| |]; simpl.
  - exists [ConsoleError "Providers query error:"]. split; [reflexivity|].
    unfold set_trace. simpl. now rewrite <- !app_assoc.
  - exists []. split; [reflexivity|].
    unfold set_trace. simpl. now rewrite <- !app_assoc.
Qed.

(** What the query returns when its fetches work. *)
Lemma queryFn_result (w : World) :
  fetches_succeed w ->
  result queryFn w
  = Val (servicesWithProviders (fetched w)
           (Some (run_profiles (providerIds (fetched w)) (profiles w)))).
Proof.
  intros [Hup Hrest]. unfold result.
  destruct (fetched w) as [|s rest] eqn:E.
  - rewrite (queryFn_no_rows w Hup E). reflexivity.
  - destruct Hrest as [?|Hpup]; [discriminate|].
    rewrite (queryFn_joined w Hup) by (try assumption; rewrite E; discriminate).
    now rewrite E.
Qed.

(** The query's filters select what the spec's filter describes, when the
    chosen category has no wildcard in it. *)
Lemma services_query_listed (v : ViewState) (s : StoredService) :
  category_plain v = true ->
  forallb (fun f => service_sat f s) (services_query v) = listed v s.
Proof.
  unfold category_plain, services_query, listed, present.
  destruct v as [[[|a c]|] [[|b k]|]]; simpl; intro Hp;
    rewrite ?ilike_plain by exact Hp;
    destruct (is_active s); simpl; rewrite ?andb_true_r; reflexivity.
Qed.

(** C3, as the code has it. When the listing fetch fails, or it returns
    services and the provider lookup fails, [queryFn] catches the error,
    logs it, and returns the empty list as its result, which is also the
    result of a query whose fetch worked and matched nothing. *)
Theorem queryFn_returns_empty_on_fetch_failure :
  forall (w : World),
    services_select (net w) <> Up
    \/ (services_select (net w) = Up /\ fetched w <> []
        /\ profiles_select (net w) <> Up) ->
    result queryFn w = Val []
    /\ (exists t, trace (exec queryFn w)
                  = trace w ++ t ++ [ConsoleError "Query error:"])
    /\ (forall w2, fetches_succeed w2 -> fetched w2 = [] ->
                   result queryFn w2 = result queryFn w).
Proof.
  intros w H.
  assert (E : exists t, queryFn w
                = (Val [], set_trace (trace w ++ t
                                      ++ [ConsoleError "Query error:"]) w)).
  { destruct H as [Hdown | (Hup & Hrows & Hdown)].
    - destruct (queryFn_services_down w Hdown) as (t & _ & Ht).
      exists (Store (SelectServices (services_query (view w))) :: t). exact Ht.
    - destruct (queryFn_profiles_down w Hup Hrows Hdown) as (t & _ & Ht).
      exists (Store (SelectServices (services_query (view w)))
              :: Store (SelectProfiles (providerIds (fetched w))) :: t).
      exact Ht. }
  destruct E as [t Ht]. unfold result, exec. rewrite Ht. simpl.
  split; [reflexivity|]. split; [now exists t|].
  intros w2 [Hup2 _] Hnone. now rewrite (queryFn_no_rows w2 Hup2 Hnone).
Qed.

Lemma queryFn_returns_empty_on_fetch_failure_witness :
  result queryFn (Sample.with_net Sample.lookup_fails Sample.world) = Val [].
Proof.
  refine (proj1 (queryFn_returns_empty_on_fetch_failure
                   (Sample.with_net Sample.lookup_fails Sample.world) _)).
  right. split; [reflexivity|]. split; discriminate.
Defined.

(** C3 does not hold as stated: with the listing fetch answered by an
    error the query throws nothing; it returns the empty list, the value
    it returns for a category that no service has. *)
Lemma queryFn_fetch_failure_not_surfaced :
  let failed := Sample.with_net Sample.listing_fails Sample.world in
  let no_match :=
    set_view {| selectedCategory := Some "Gardening"; selectedCity := None |}
             Sample.world in
  services_select (net failed) = Failing
  /\ result queryFn failed = Val []
  /\ (forall e, result queryFn failed <> Exn e)
  /\ fetches_succeed no_match
  /\ result queryFn no_match = result queryFn failed.
Proof.
  cbv zeta. unfold fetches_succeed.
  repeat split; try reflexivity; try discriminate. now left.
Qed.

Lemma categories_plain (c : Category) :
  In c categories -> truthy (Some (name c)) = true /\ plain (name c) = true.
Proof.
  intro H.
  assert (A : forallb (fun c => truthy (Some (name c)) && plain (name c))
                      categories = true) by reflexivity.
  rewrite forallb_forall in A. apply A in H. now apply andb_true_iff in H.
Qed.

Lemma cities_truthy (k : string) : In k cities -> truthy (Some k) = true.
Proof.
  intro H.
  assert (A : forallb (fun k => truthy (Some k)) cities = true) by reflexivity.
  rewrite forallb_forall in A. now apply A.
Qed.




(** C6. When both fetches work, the result has one view per fetched
    service, in the order of the fetch, and the provider of a view is
    undefined exactly when no profile has the service's [provider_id];
    a provider that is there is a profile with that id. *)
Theorem queryFn_one_view_per_service :
  forall (w : World),
    fetches_succeed w ->
    exists l,
      result queryFn w = Val l
      /\ map ListingView.service l = fetched w
      /\ Forall (fun v =>
                   (ListingView.provider v = None
                    <-> forall p, In p (profiles w) ->
                                  Profile.id p
                                  <> Service.provider_id (ListingView.service v))
                   /\ (forall p, ListingView.provider v = Some p ->
                                 In p (profiles w)
                                 /\ Profile.id p
                                    = Service.provider_id (ListingView.service v)))
                l.
Proof.
  intros w Hok. eexists. split; [exact (queryFn_result w Hok)|].
  split; [apply servicesWithProviders_services|].
  unfold servicesWithProviders. apply Forall_map, Forall_forall.
  intros s Hs. cbn [ListingView.provider ListingView.service]. split.
  - rewrite find_provider_none. split.
    + intros H p Hp Heq.
      exact (H p (run_profiles_covers _ _ s p Hs Hp Heq) Heq).
    + intros H p Hp. apply H. exact (run_profiles_incl _ _ _ Hp).
  - intros p Hp. apply find_provider_some in Hp. destruct Hp as [Hin Heq].
    split; [exact (run_profiles_incl _ _ _ Hin)|exact Heq].
Qed.

Lemma queryFn_one_view_per_service_witness :
  exists l,
    result queryFn Sample.world = Val l
    /\ map ListingView.service l
       = [Sample.cleaning; Sample.windows; Sample.haircut].
Proof.
  destruct (queryFn_one_view_per_service Sample.world
              (conj eq_refl (or_intror eq_refl))) as (l & Hl & Hs & _).
  exists l. split; [exact Hl|exact Hs].
Defined.

(** The provider lookups of a trace are among its requests. *)
Lemma lookups_no_requests (t : list Event) : requests t = [] -> lookups t = [].
Proof.
  induction t as [|e t IH]; [reflexivity|].
  destruct e as [r| | | |]; simpl; try exact IH. discriminate.
Qed.

(** C7, as the code has it. When the listing fetch returns services, the
    query makes one provider lookup, and the ids it passes are the
    [provider_id]s of the fetched services, one entry per service in the
    order of the fetch; an id is passed exactly when a fetched service
    has it. *)
Theorem queryFn_lookup_ids :
  forall (w : World),
    services_select (net w) = Up ->
    fetched w <> [] ->
    lookups (trace (exec queryFn w))
    = lookups (trace w) ++ [map Service.provider_id (fetched w)]
    /\ length (providerIds (fetched w)) = length (fetched w)
    /\ (forall x, In x (providerIds (fetched w))
                  <-> exists s, In s (fetched w) /\ Service.provider_id s = x).
Proof.
  intros w Hup Hrows. split; [|split].
  - unfold exec.
    destruct (profiles_select (net w)) eqn:Hp.
    + rewrite (queryFn_joined w Hup Hrows Hp). simpl.
      rewrite lookups_app. reflexivity.
    + destruct (queryFn_profiles_down w Hup Hrows) as (t & Hq & Ht);
        [congruence|].
      rewrite Ht. simpl. rewrite lookups_app. simpl. rewrite lookups_app.
      rewrite (lookups_no_requests t Hq). reflexivity.
    + destruct (queryFn_profiles_down w Hup Hrows) as (t & Hq & Ht);
        [congruence|].
      rewrite Ht. simpl. rewrite lookups_app. simpl. rewrite lookups_app.
      rewrite (lookups_no_requests t Hq). reflexivity.
  - apply length_map.
  - intro x. unfold providerIds. rewrite in_map_iff.
    split; intros (s & H1 & H2); exists s; auto.
Qed.

Lemma queryFn_lookup_ids_witness :
  lookups (trace (exec queryFn Sample.world)) = [["P1"; "P1"; "P2"]].
Proof.
  refine (proj1 (queryFn_lookup_ids Sample.world eq_refl _)).
  discriminate.
Defined.

(** C7 does not hold as stated: two of the three fetched services share
    provider [P1], and the lookup is passed [P1] twice. *)
Lemma queryFn_lookup_ids_repeat :
  lookups (trace (exec queryFn Sample.world)) = [["P1"; "P1"; "P2"]]
  /\ ~ NoDup ["P1"; "P1"; "P2"].
Proof.
  split; [reflexivity|].
  intro H. inversion H as [|x l Hnin _]. apply Hnin. now left.
Qed.

(** ** Every way a booking request can end *)

Lemma toasts_app (t u : list Event) : toasts (t ++ u) = toasts t ++ toasts u.
Proof.
  induction t as [|e t IH]; simpl; [reflexivity|].
  destruct e; simpl; now rewrite IH.
Qed.

Lemma invalidations_app (t u : list Event) :
  invalidations (t ++ u) = invalidations t ++ invalidations u.
Proof.
  induction t as [|e t IH]; simpl; [reflexivity|].
  destruct e; simpl; now rewrite IH.
Qed.

(** [mutate] in full when the store takes the row. *)
Lemma mutate_up (w : World) (u : User) (serviceId providerId : string) :
  user w = Some u ->
  bookings_insert (net w) = Up ->
  let d := pending_draft serviceId (user_id u) providerId (clock w) in
  let b := stored (fresh_id (bookings w)) d in
  mutate serviceId providerId w
  = (Val tt,
     set_trace (trace w ++ [Store (InsertBooking d);
                            Invalidate "user-bookings";
                            Invalidate "customer-bookings";
                            Toast booking_sent])
       (set_mutation (Succeeded (Some [b]))
          (set_bookings (bookings w ++ [b]) w))).
Proof.
  intros Hu Hup d b. subst d b.
  unfold mutate, mutationFn, bind, get_user, now, insert_booking.
  rewrite Hu, Hup. simpl.
  unfold onSuccess, bind, invalidateQueries, toast, emit, set_mutation,
    set_bookings, set_trace, pending_draft. simpl.
  now rewrite <- !app_assoc.
Qed.

(** [mutate] in full when the store does not take the row. *)
Lemma mutate_down (w : World) (u : User) (serviceId providerId : string) :
  user w = Some u ->
  bookings_insert (net w) <> Up ->
  exists e,
    mutate serviceId providerId w
    = (Val tt,
       set_trace (trace w ++ [Store (InsertBooking
                                       (pending_draft serviceId (user_id u)
                                                      providerId (clock w)));
                              ConsoleError "Booking error:";
                              Toast booking_failed])
         (set_mutation (Errored e) w)).
Proof.
  intros Hu Hdown. unfold mutate, mutationFn, bind, get_user, now, insert_booking.
  rewrite Hu.
  destruct (bookings_insert (net w)); [contradiction| |]; simpl;
    eexists;
    unfold onError, bind, console_error, toast, emit, set_mutation, set_trace,
      pending_draft;
    simpl; now rewrite <- !app_assoc.
Qed.

(** [handleBookService] always returns, and it ends in one of the six
    ways of [BookOutcome]. *)
Lemma handleBookService_outcome (w : World) (serviceId providerId : string) :
  exists w',
    handleBookService serviceId providerId w = (Val tt, w')
    /\ BookOutcome w serviceId providerId w'.
Proof.
  destruct (user w) as [u|] eqn:Hu.
  2:{ eexists. split; [now apply handleBookService_signed_out|].
      now constructor. }
  destruct (String.eqb_spec (user_id u) providerId) as [Heq|Hne].
  { eexists. split.
    - unfold handleBookService, bind, get_user. simpl. rewrite Hu.
      apply String.eqb_eq in Heq. rewrite Heq. reflexivity.
    - now apply (OwnService _ _ _ u). }
  assert (Hgo : bookings_select (net w) = Failing
                \/ (bookings_select (net w) = Up
                    /\ active_for serviceId (user_id u) (bookings w) = []) ->
                exists w', handleBookService serviceId providerId w = (Val tt, w')
                           /\ BookOutcome w serviceId providerId w').
  { intro Hsel. rewrite (handleBookService_proceeds w u) by assumption.
    destruct (bookings_insert (net w)) eqn:Hins.
    - pose proof (Booked w serviceId providerId u Hu Hne Hsel Hins) as HB.
      cbv zeta in HB. eexists. split; [|exact HB].
      rewrite (mutate_up (asked _ w) u serviceId providerId Hu Hins).
      unfold asked, set_trace, set_mutation, set_bookings. simpl.
      now rewrite <- app_assoc.
    - destruct (mutate_down (asked (SelectBookings
                  (duplicate_check serviceId (user_id u))) w) u
                  serviceId providerId Hu) as [e He];
        [simpl; congruence|].
      assert (Hdown : bookings_insert (net w) <> Up) by congruence.
      pose proof (NotStored w serviceId providerId u e Hu Hne Hsel Hdown) as HB.
      cbv zeta in HB. eexists. split; [|exact HB].
      rewrite He. unfold asked, set_trace, set_mutation. simpl.
      now rewrite <- app_assoc.
    - destruct (mutate_down (asked (SelectBookings
                  (duplicate_check serviceId (user_id u))) w) u
                  serviceId providerId Hu) as [e He];
        [simpl; congruence|].
      assert (Hdown : bookings_insert (net w) <> Up) by congruence.
      pose proof (NotStored w serviceId providerId u e Hu Hne Hsel Hdown) as HB.
      cbv zeta in HB. eexists. split; [|exact HB].
      rewrite He. unfold asked, set_trace, set_mutation. simpl.
      now rewrite <- app_assoc. }
  destruct (bookings_select (net w)) eqn:Hsel.
  - destruct (active_for serviceId (user_id u) (bookings w)) as [|b0 l] eqn:Hact.
    + apply Hgo. now right.
    + eexists. split.
      * apply (handleBookService_duplicate_seen w u); auto.
        rewrite Hact. discriminate.
      * apply (Duplicate _ _ _ u); auto. rewrite Hact. discriminate.
  - apply Hgo. now left.
  - eexists. split.
    + rewrite (handleBookService_signed_in w u) by assumption.
      unfold try_catch, bind, select_bookings, console_error, emit.
      rewrite Hsel. simpl. unfold set_trace. simpl.
      rewrite <- ?app_assoc. reflexivity.
    + now apply (CheckRejected _ _ _ u).
Qed.

(** X1. Every call of [handleBookService] returns normally and shows exactly
    one toast, except when the read of the duplicate check rejects: then
    the handler only logs to the console, shows nothing, and the request
    is dropped after that one read. *)
Theorem handleBookService_one_toast_or_silent_drop :
  forall (w : World) (serviceId providerId : string),
    let w' := exec (handleBookService serviceId providerId) w in
    result (handleBookService serviceId providerId) w = Val tt
    /\ ((exists m, toasts (trace w') = toasts (trace w) ++ [m])
        \/ (exists u,
              user w = Some u
              /\ bookings_select (net w) = Throwing
              /\ toasts (trace w') = toasts (trace w)
              /\ bookings w' = bookings w
              /\ createBooking w' = createBooking w
              /\ requests (trace w')
                 = requests (trace w)
                   ++ [SelectBookings
                         (duplicate_check serviceId (user_id u))])).
Proof.
  intros w sid pid w'. subst w'. unfold exec, result.
  destruct (handleBookService_outcome w sid pid) as (w' & E & O).
  rewrite E. simpl. split; [reflexivity|].
  destruct O; simpl; rewrite ?toasts_app; simpl;
    try (left; eexists; reflexivity).
  right. exists u. rewrite app_nil_r, requests_app. simpl.
  repeat split; auto.
Qed.

(** X2. The cached booking lists are invalidated only by a call that stored a
    booking: such a call invalidates [user-bookings] and
    [customer-bookings], in that order, right after the insertion and
    before the success toast; any other call invalidates nothing and
    leaves the bookings as they were. *)
Theorem handleBookService_invalidates_after_insert :
  forall (w : World) (serviceId providerId : string),
    let w' := exec (handleBookService serviceId providerId) w in
    (bookings w' = bookings w
     /\ invalidations (trace w') = invalidations (trace w))
    \/ (exists b d t,
          bookings w' = bookings w ++ [b]
          /\ b = stored (Booking.id b) d
          /\ trace w' = trace w ++ t ++ [Store (InsertBooking d);
                                         Invalidate "user-bookings";
                                         Invalidate "customer-bookings";
                                         Toast booking_sent]
          /\ invalidations t = []).
Proof.
  intros w sid pid w'. subst w'. unfold exec.
  destruct (handleBookService_outcome w sid pid) as (w' & E & O).
  rewrite E. simpl.
  destruct O; simpl; rewrite ?invalidations_app; simpl;
    rewrite ?app_nil_r; auto.
  right.
  exists (stored (fresh_id (bookings w))
            (pending_draft sid (user_id u) pid (clock w))),
         (pending_draft sid (user_id u) pid (clock w)),
         [Store (SelectBookings (duplicate_check sid (user_id u)))].
  repeat split.
Qed.

(** X3. What a call of [handleBookService] can change. The services, the
    profiles, the signed-in user and the filter selection stay as they
    were, and no stored booking is altered or removed; at most one
    booking is added, and it is for the service and provider passed, for
    the signed-in customer, with status [pending] and the current time,
    and it is what the mutation settles with. *)
Theorem handleBookService_only_adds_own_pending :
  forall (w : World) (serviceId providerId : string),
    let w' := exec (handleBookService serviceId providerId) w in
    services w' = services w /\ profiles w' = profiles w
    /\ user w' = user w /\ view w' = view w /\ net w' = net w
    /\ (bookings w' = bookings w
        \/ exists u b,
            user w = Some u
            /\ bookings w' = bookings w ++ [b]
            /\ Booking.service_id b = serviceId
            /\ Booking.customer_id b = user_id u
            /\ Booking.provider_id b = providerId
            /\ Booking.status b = "pending"
            /\ Booking.booking_date b = clock w
            /\ createBooking w' = Succeeded (Some [b])).
Proof.
  intros w sid pid w'. subst w'. unfold exec.
  destruct (handleBookService_outcome w sid pid) as (w' & E & O).
  rewrite E. simpl.
  destruct O; simpl; repeat (split; [reflexivity|]); auto.
  right. exists u. eexists. repeat split. assumption.
Qed.

(** X4. Two requests that do not overlap, on a working store. A
    signed-in customer who is not the provider asks for a service, and
    asks again once the first call and the mutation it fired have
    settled: the customer then has an active booking of the service, and
    the second call is turned down as a duplicate and stores nothing. *)
Theorem handleBookService_twice :
  forall (w : World) (u : User) (serviceId providerId : string),
    user w = Some u ->
    user_id u <> providerId ->
    bookings_select (net w) = Up ->
    bookings_insert (net w) = Up ->
    let w1 := exec (handleBookService serviceId providerId) w in
    let w2 := exec (handleBookService serviceId providerId) w1 in
    active_for serviceId (user_id u) (bookings w1) <> []
    /\ bookings w2 = bookings w1
    /\ trace w2 = trace w1 ++ [Store (SelectBookings
                                        (duplicate_check serviceId (user_id u)));
                               Toast (rejected AlreadyBooked)].
Proof.
  intros w u sid pid Hu Hne Hsel Hins w1 w2.
  assert (H1 : user w1 = Some u /\ bookings_select (net w1) = Up
               /\ active_for sid (user_id u) (bookings w1) <> []).
  { subst w1 w2. unfold exec.
    destruct (handleBookService_outcome w sid pid) as (w' & E & O).
    rewrite E. simpl.
    destruct O as [H|u' H ?|u' H _ _ Hact|u' H _ Hth|u' H _ _ _|u' e H _ _ Hdown];
      simpl; try congruence.
    - assert (u' = u) by congruence. subst u'. auto.
    - assert (u' = u) by congruence. subst u'. repeat split; auto.
      rewrite active_for_app. intro Hnil.
      apply app_eq_nil in Hnil. destruct Hnil as [_ Hb]. revert Hb.
      unfold active_for, active. simpl. rewrite !String.eqb_refl.
      discriminate. }
  destruct H1 as (Hu1 & Hsel1 & Hact1). split; [exact Hact1|].
  subst w2. unfold exec.
  rewrite (handleBookService_duplicate_seen w1 u sid pid Hu1 Hne Hsel1 Hact1).
  simpl. auto.
Qed.

Lemma handleBookService_twice_witness :
  let w1 := exec (handleBookService "1" "P1") Sample.world in
  bookings (exec (handleBookService "1" "P1") w1) = bookings w1.
Proof.
  exact (proj1 (proj2 (handleBookService_twice Sample.world
                         {| user_id := "C9" |} "1" "P1" eq_refl
                         ltac:(discriminate) eq_refl eq_refl))).
Defined.

Lemma active_for_other (serviceId customerId s c providerId date : string)
  (k : nat) :
  s <> serviceId \/ c <> customerId ->
  active_for s c [stored k (pending_draft serviceId customerId providerId date)]
  = [].
Proof.
  intro H. unfold active_for. simpl.
  destruct H as [H|H]; apply not_eq_sym, String.eqb_neq in H; rewrite H;
    [reflexivity|]. now rewrite andb_false_r.
Qed.

(** [mutate] never throws at its caller. *)
Lemma mutate_returns (w : World) (serviceId providerId : string) :
  exists w', mutate serviceId providerId w = (Val tt, w').
Proof.
  unfold mutate, onSuccess, onError, bind, invalidateQueries, console_error,
    toast, emit.
  destruct (mutationFn serviceId providerId w) as [[d|e] w1]; simpl;
    eexists; reflexivity.
Qed.

(** The check answers [true], and only logs its read, when the customer
    is signed in, is not the provider, and the read shows no active
    booking or is answered with an error. *)
Lemma bookingCheck_true (w : World) (u : User) (serviceId providerId : string) :
  user w = Some u ->
  user_id u <> providerId ->
  (bookings_select (net w) = Failing
   \/ (bookings_select (net w) = Up
       /\ active_for serviceId (user_id u) (bookings w) = [])) ->
  bookingCheck serviceId providerId w
  = (Val true,
     asked (SelectBookings (duplicate_check serviceId (user_id u))) w).
Proof.
  intros Hu Hne Hsel. unfold bookingCheck, bind at 1, get_user.
  rewrite Hu. apply String.eqb_neq in Hne. rewrite Hne.
  unfold try_catch, bind, select_bookings.
  fold (duplicate_check serviceId (user_id u)).
  destruct Hsel as [Hf | [Hup Hnone]].
  - rewrite Hf. reflexivity.
  - rewrite Hup. simpl. rewrite run_bookings_duplicate_check, Hnone.
    reflexivity.
Qed.

Lemma bookingCheck_true_inv (w : World) (serviceId providerId : string) :
  result (bookingCheck serviceId providerId) w = Val true ->
  exists u,
    user w = Some u
    /\ user_id u <> providerId
    /\ (bookings_select (net w) = Failing
        \/ (bookings_select (net w) = Up
            /\ active_for serviceId (user_id u) (bookings w) = [])).
Proof.
  unfold result, bookingCheck, bind at 1, get_user.
  destruct (user w) as [u|] eqn:Hu; [|discriminate].
  destruct (String.eqb_spec (user_id u) providerId) as [Heq|Hne];
    [discriminate|].
  unfold try_catch, bind, select_bookings.
  fold (duplicate_check serviceId (user_id u)).
  destruct (bookings_select (net w)) eqn:Hsel; simpl; try discriminate.
  - rewrite run_bookings_duplicate_check.
    destruct (active_for serviceId (user_id u) (bookings w)) eqn:Hact;
      [|discriminate].
    intros _. exists u. auto.
  - intros _. exists u. auto.
Qed.

(** [handleBookService] is the check followed, when it answers [true],
    by the mutation run to settlement. *)
Lemma handleBookService_phases (w : World) (serviceId providerId : string) :
  handleBookService serviceId providerId w
  = (go <- bookingCheck serviceId providerId ;;
     if go then mutate serviceId providerId else ret tt) w.
Proof.
  unfold handleBookService, bookingCheck, bind, try_catch, get_user,
    select_bookings, toast, console_error, emit, ret.
  destruct (user w) as [u|]; [|reflexivity].
  destruct (user_id u =? providerId)%string; [reflexivity|].
  destruct (bookings_select (net w)); simpl; try reflexivity.
  - destruct (run_bookings _ (bookings w)); [|reflexivity].
    destruct (mutate_returns
                (set_trace (trace w ++ [Store (SelectBookings
                   [ServiceIdEq serviceId; CustomerIdEq (user_id u);
                    StatusIn active_statuses])]) w)
                serviceId providerId) as [w' E].
    now rewrite E.
  - destruct (mutate_returns
                (set_trace (trace w ++ [Store (SelectBookings
                   [ServiceIdEq serviceId; CustomerIdEq (user_id u);
                    StatusIn active_statuses])]) w)
                serviceId providerId) as [w' E].
    now rewrite E.
Qed.

(** X5. A request that nothing interferes with keeps invariant I1 for
    every pair. The check of [handleBookService] has answered [true]
    with its read answered by rows, and the mutation it fires runs in a
    world whose bookings are still the ones that read saw: a (service,
    customer) pair with at most one active booking before has at most
    one after the mutation has settled, whether the store takes the
    insertion or not. *)
Theorem mutate_after_check_keeps_at_most_one_active :
  forall (w wm : World) (serviceId providerId : string),
    bookings_select (net w) = Up ->
    result (bookingCheck serviceId providerId) w = Val true ->
    user wm = user w ->
    bookings wm = bookings w ->
    forall s c,
      at_most_one_active s c (bookings w) ->
      at_most_one_active s c
        (bookings (exec (mutate serviceId providerId) wm)).
Proof.
  intros w wm sid pid Hsel Hgo Huser Hsame s c Hinv.
  destruct (bookingCheck_true_inv w sid pid Hgo) as (u & Hu & Hne & Hcase).
  destruct Hcase as [Hf|[_ Hnone]]; [congruence|].
  rewrite <- Huser in Hu. unfold exec.
  destruct (bookings_insert (net wm)) eqn:Hins.
  - rewrite (mutate_up wm u sid pid Hu Hins).
    cbn [snd bookings set_trace set_mutation set_bookings].
    rewrite Hsame. unfold at_most_one_active in *.
    rewrite active_for_app, length_app.
    destruct (String.eqb_spec s sid) as [->|Hs].
    + destruct (String.eqb_spec c (user_id u)) as [->|Hc].
      * rewrite Hnone, active_for_stored. simpl. lia.
      * rewrite active_for_other by now right. simpl. lia.
    + rewrite active_for_other by now left. simpl. lia.
  - destruct (mutate_down wm u sid pid Hu) as [e E]; [congruence|].
    rewrite E. cbn [snd bookings set_trace set_mutation]. now rewrite Hsame.
  - destruct (mutate_down wm u sid pid Hu) as [e E]; [congruence|].
    rewrite E. cbn [snd bookings set_trace set_mutation]. now rewrite Hsame.
Qed.

Lemma mutate_after_check_keeps_at_most_one_active_witness :
  length (bookings (exec (mutate "1" "P1")
                      (exec (bookingCheck "1" "P1") Sample.world))) = 1
  /\ at_most_one_active "1" "C9"
       (bookings (exec (mutate "1" "P1")
                    (exec (bookingCheck "1" "P1") Sample.world))).
Proof.
  split; [reflexivity|].
  refine (mutate_after_check_keeps_at_most_one_active Sample.world
            (exec (bookingCheck "1" "P1") Sample.world) "1" "P1"
            eq_refl eq_refl eq_refl eq_refl "1" "C9" _).
  unfold at_most_one_active. simpl. lia.
Defined.

(** X11. Two requests that overlap. A signed-in customer who is not the
    provider and has no active booking of the service asks for it twice
    on a working store, and the read of the second call is answered
    before the insertion of the first (the mutation is fired without
    being awaited): both checks answer [true], both insertions go
    through and both show the success toast, so the customer ends with
    two active bookings of the service and invariant I1 no longer
    holds. *)
Theorem overlapping_requests_store_two :
  forall (w : World) (u : User) (serviceId providerId : string),
    user w = Some u ->
    user_id u <> providerId ->
    bookings_select (net w) = Up ->
    bookings_insert (net w) = Up ->
    active_for serviceId (user_id u) (bookings w) = [] ->
    let w1 := exec (bookingCheck serviceId providerId) w in
    let w2 := exec (bookingCheck serviceId providerId) w1 in
    let w4 := exec (mutate serviceId providerId)
                (exec (mutate serviceId providerId) w2) in
    result (bookingCheck serviceId providerId) w = Val true
    /\ result (bookingCheck serviceId providerId) w1 = Val true
    /\ length (bookings w4) = length (bookings w) + 2
    /\ length (active_for serviceId (user_id u) (bookings w4)) = 2
    /\ ~ at_most_one_active serviceId (user_id u) (bookings w4)
    /\ toasts (trace w4) = toasts (trace w) ++ [booking_sent; booking_sent].
Proof.
  intros w u sid pid Hu Hne Hsel Hins Hnone w1 w2 w4.
  assert (E1 : bookingCheck sid pid w
               = (Val true,
                  asked (SelectBookings (duplicate_check sid (user_id u))) w))
    by (apply bookingCheck_true; auto).
  assert (E2 : bookingCheck sid pid w1
               = (Val true,
                  asked (SelectBookings (duplicate_check sid (user_id u))) w1)).
  { subst w1. unfold exec. rewrite E1. apply bookingCheck_true; auto. }
  assert (Hw2 : user w2 = Some u /\ bookings_insert (net w2) = Up
                /\ bookings w2 = bookings w
                /\ toasts (trace w2) = toasts (trace w)).
  { assert (Ew2 : w2 = asked (SelectBookings
                                (duplicate_check sid (user_id u)))
                         (asked (SelectBookings
                                   (duplicate_check sid (user_id u))) w)).
    { subst w2. unfold exec. rewrite E2. cbn [snd].
      subst w1. unfold exec. now rewrite E1. }
    rewrite Ew2. unfold asked. simpl.
    rewrite !toasts_app. simpl. rewrite !app_nil_r. auto. }
  destruct Hw2 as (Hu2 & Hins2 & Hb2 & Ht2).
  pose proof (mutate_up w2 u sid pid Hu2 Hins2) as E3. cbv zeta in E3.
  set (w3 := exec (mutate sid pid) w2) in *.
  assert (Hw3 : user w3 = Some u /\ bookings_insert (net w3) = Up).
  { subst w3. unfold exec. rewrite E3. simpl. auto. }
  destruct Hw3 as (Hu3 & Hins3).
  pose proof (mutate_up w3 u sid pid Hu3 Hins3) as E4. cbv zeta in E4.
  assert (Hb3 : bookings w3
                = bookings w ++ [stored (fresh_id (bookings w2))
                                   (pending_draft sid (user_id u) pid
                                                  (clock w2))]).
  { subst w3. unfold exec. rewrite E3. simpl. now rewrite Hb2. }
  assert (Ht3 : toasts (trace w3) = toasts (trace w) ++ [booking_sent]).
  { subst w3. unfold exec. rewrite E3. simpl.
    rewrite toasts_app, Ht2. reflexivity. }
  assert (Hb4 : bookings w4
                = bookings w3 ++ [stored (fresh_id (bookings w3))
                                    (pending_draft sid (user_id u) pid
                                                   (clock w3))]).
  { subst w4. unfold exec at 1. rewrite E4. reflexivity. }
  assert (Hlen : length (active_for sid (user_id u) (bookings w4)) = 2).
  { rewrite Hb4, Hb3, !active_for_app, !active_for_stored, Hnone.
    reflexivity. }
  unfold result. rewrite E1, E2. repeat split.
  - rewrite Hb4, Hb3, !length_app. simpl. lia.
  - exact Hlen.
  - unfold at_most_one_active. rewrite Hlen. lia.
  - subst w4. unfold exec at 1. rewrite E4. simpl.
    rewrite toasts_app, Ht3, <- app_assoc. reflexivity.
Qed.

Lemma overlapping_requests_store_two_witness :
  let w2 := exec (bookingCheck "1" "P1")
              (exec (bookingCheck "1" "P1") Sample.world) in
  length (active_for "1" "C9"
            (bookings (exec (mutate "1" "P1")
                         (exec (mutate "1" "P1") w2)))) = 2.
Proof.
  exact (proj1 (proj2 (proj2 (proj2
           (overlapping_requests_store_two Sample.world {| user_id := "C9" |}
              "1" "P1" eq_refl ltac:(discriminate) eq_refl eq_refl
              eq_refl))))).
Defined.

(** ** Every way the listing query can end *)

(** [queryFn] in one equation: the value is the joined rows or [[]], the
    world changes by its log only, and the log gains the listing fetch
    and, when that fetch returned rows, the provider lookup. *)
Lemma queryFn_shape (w : World) :
  exists l t,
    queryFn w = (Val l, set_trace (trace w ++ t) w)
    /\ (l = []
        \/ l = servicesWithProviders (fetched w)
                 (Some (run_profiles (providerIds (fetched w)) (profiles w))))
    /\ toasts t = [] /\ invalidations t = []
    /\ requests t
       = SelectServices (services_query (view w))
         :: match services_select (net w), fetched w with
            | Up, _ :: _ => [SelectProfiles (providerIds (fetched w))]
            | _, _ => []
            end.
Proof.
  destruct (services_select (net w)) eqn:Hs.
  - destruct (fetched w) as [|x rest] eqn:Hf.
    + exists [], [Store (SelectServices (services_query (view w)))].
      split; [now apply queryFn_no_rows|]. auto.
    + assert (Hrows : fetched w <> []) by (rewrite Hf; discriminate).
      destruct (profiles_select (net w)) eqn:Hp.
      * eexists. eexists. split; [apply (queryFn_joined w Hs Hrows Hp)|].
        rewrite Hf. simpl. auto.
      * exists [], [Store (SelectServices (services_query (view w)));
                    Store (SelectProfiles (providerIds (fetched w)));
                    ConsoleError "Providers query error:";
                    ConsoleError "Query error:"].
        split; [|rewrite Hf; auto].
        unfold queryFn, try_catch, bind, get_view, select_services,
          select_profiles. rewrite Hs. simpl. fold (fetched w). rewrite Hf.
        simpl. rewrite Hp. simpl. unfold set_trace. simpl.
        now rewrite <- !app_assoc.
      * exists [], [Store (SelectServices (services_query (view w)));
                    Store (SelectProfiles (providerIds (fetched w)));
                    ConsoleError "Query error:"].
        split; [|rewrite Hf; auto].
        unfold queryFn, try_catch, bind, get_view, select_services,
          select_profiles. rewrite Hs. simpl. fold (fetched w). rewrite Hf.
        simpl. rewrite Hp. simpl. unfold set_trace. simpl.
        now rewrite <- !app_assoc.
  - exists [], [Store (SelectServices (services_query (view w)));
                ConsoleError "Services query error:";
                ConsoleError "Query error:"].
    split; [|destruct (fetched w); auto].
    unfold queryFn, try_catch, bind, get_view, select_services. rewrite Hs.
    simpl. unfold set_trace. simpl. now rewrite <- !app_assoc.
  - exists [], [Store (SelectServices (services_query (view w)));
                ConsoleError "Query error:"].
    split; [|destruct (fetched w); auto].
    unfold queryFn, try_catch, bind, get_view, select_services. rewrite Hs.
    simpl. unfold set_trace. simpl. now rewrite <- !app_assoc.
Qed.

(** X6. [queryFn] never throws and never writes: whatever the store does, it
    returns a list, leaves the tables, the user and the selection as
    they were, shows no toast and invalidates nothing. Its requests are
    the listing fetch and, only when that fetch returned rows, one
    provider lookup; when the fetch failed or matched nothing the
    provider lookup is not made. *)
Theorem queryFn_resolves_read_only :
  forall (w : World),
    exists l t,
      queryFn w = (Val l, set_trace (trace w ++ t) w)
      /\ toasts t = [] /\ invalidations t = []
      /\ requests t
         = SelectServices (services_query (view w))
           :: match services_select (net w), fetched w with
              | Up, _ :: _ => [SelectProfiles (providerIds (fetched w))]
              | _, _ => []
              end.
Proof.
  intro w. destruct (queryFn_shape w) as (l & t & E & _ & H).
  exists l, t. auto.
Qed.

(** What the query's filters let through, whatever the chosen category:
    an active service, in the chosen city when a city is chosen. *)
Lemma services_query_sound (v : ViewState) (s : StoredService) :
  forallb (fun f => service_sat f s) (services_query v) = true ->
  is_active s = true
  /\ (forall k, present (selectedCity v) = Some k ->
                Service.city (row s) = k).
Proof.
  unfold services_query, present.
  destruct v as [[[|a c]|] [[|b k]|]]; simpl; intro H;
    repeat (apply andb_true_iff in H; destruct H as [? H]);
    (split; [now destruct (is_active s)|]); intros k' Hk;
    try discriminate Hk; injection Hk as <-; now apply String.eqb_eq.
Qed.

Lemma fetched_sound (w : World) (x : Service.t) :
  In x (fetched w) ->
  exists s, In s (services w) /\ row s = x /\ is_active s = true
            /\ (forall k, present (selectedCity (view w)) = Some k ->
                          Service.city x = k).
Proof.
  unfold fetched, run_services. intro H.
  apply in_map_iff in H. destruct H as (s & <- & Hin).
  apply filter_In in Hin. destruct Hin as [Hin Hsat].
  apply services_query_sound in Hsat. destruct Hsat. exists s. auto.
Qed.

(** X7. Whatever the store does and whatever the chosen category is, every
    service [queryFn] returns is an active service of the table, in the
    chosen city when a (non-empty) city is chosen, and a provider
    attached to it is a profile of the table with the service's
    [provider_id]. *)
Theorem queryFn_lists_only_active_services :
  forall (w : World),
    exists l,
      result queryFn w = Val l
      /\ Forall (fun v =>
                   (exists s, In s (services w)
                              /\ row s = ListingView.service v
                              /\ is_active s = true)
                   /\ (forall k, present (selectedCity (view w)) = Some k ->
                                 Service.city (ListingView.service v) = k)
                   /\ (forall p, ListingView.provider v = Some p ->
                                 In p (profiles w)
                                 /\ Profile.id p
                                    = Service.provider_id
                                        (ListingView.service v)))
                l.
Proof.
  intro w. destruct (queryFn_shape w) as (l & t & E & Hl & _).
  exists l. unfold result. rewrite E. split; [reflexivity|].
  destruct Hl as [->| ->]; [constructor|].
  unfold servicesWithProviders. apply Forall_map, Forall_forall.
  intros x Hx. cbn [ListingView.provider ListingView.service].
  destruct (fetched_sound w x Hx) as (s & Hin & Hrow & Hact & Hcity).
  split; [exists s; auto|]. split; [exact Hcity|].
  intros p Hp. apply find_provider_some in Hp. destruct Hp as [Hp Hid].
  split; [exact (run_profiles_incl _ _ _ Hp)|exact Hid].
Qed.

(** ** The cards, the select and the buttons *)

(** The listing of a selection whose category has no wildcard in it. *)
Lemma queryFn_listed (w : World) :
  fetches_succeed w ->
  category_plain (view w) = true ->
  exists l,
    result queryFn w = Val l
    /\ map ListingView.service l
       = map row (filter (listed (view w)) (services w)).
Proof.
  intros Hok Hplain. eexists. split; [exact (queryFn_result w Hok)|].
  rewrite servicesWithProviders_services. unfold fetched, run_services.
  f_equal. apply filter_ext. intro s. now apply services_query_listed.
Qed.

(** X8. Clicking one of the six category cards and listing: when both
    fetches work, the result is, in table order, the active services
    whose category is the card's name up to case, of every city; after a
    city of the select is chosen as well, those of them in that city. *)
Theorem categoryCard_lists_its_category :
  forall (w : World) (c : Category),
    In c categories ->
    let w1 := exec (categoryCard c) w in
    (fetches_succeed w1 ->
     exists l,
       result queryFn w1 = Val l
       /\ map ListingView.service l
          = map row (filter (fun s => is_active s
                                      && eq_ci (Service.category (row s))
                                               (name c))
                            (services w)))
    /\ (forall k, In k cities ->
          let w2 := exec (selectCity k) w1 in
          fetches_succeed w2 ->
          exists l,
            result queryFn w2 = Val l
            /\ map ListingView.service l
               = map row (filter (fun s => is_active s
                                           && eq_ci (Service.category (row s))
                                                    (name c)
                                           && String.eqb (Service.city (row s)) k)
                                 (services w))).
Proof.
  intros w c Hc w1. destruct (categories_plain c Hc) as [Ht Hp].
  destruct c as [i n ic]. cbn [name] in *.
  destruct n as [|a r]; [discriminate Ht|].
  split.
  - intro Hok. destruct (queryFn_listed w1 Hok) as (l & Hl & Hm).
    + exact Hp.
    + exists l. split; [exact Hl|]. rewrite Hm. subst w1.
      apply (f_equal (map row)).
      change (services (exec (categoryCard {| category_id := i;
                                              name := String a r;
                                              icon := ic |}) w))
        with (services w).
      apply filter_ext. intro s. unfold listed, present. simpl.
      now rewrite andb_true_r.
  - intros k Hk. pose proof (cities_truthy k Hk) as Htk.
    destruct k as [|b k]; [discriminate Htk|]. intro Hok.
    destruct (queryFn_listed _ Hok) as (l & Hl & Hm).
    + exact Hp.
    + exists l. split; [exact Hl|]. rewrite Hm. subst w1.
      apply (f_equal (map row)).
      change (services (exec (selectCity (String b k))
                (exec (categoryCard {| category_id := i;
                                       name := String a r;
                                       icon := ic |}) w)))
        with (services w).
      apply filter_ext. intro s. reflexivity.
Qed.

Lemma categoryCard_lists_its_category_witness :
  exists l,
    result queryFn
      (exec (categoryCard {| category_id := 3; name := "Cleaning";
                             icon := "🧹" |}) Sample.world) = Val l
    /\ map ListingView.service l = [Sample.cleaning; Sample.windows].
Proof.
  refine (proj1 (categoryCard_lists_its_category Sample.world
                   {| category_id := 3; name := "Cleaning"; icon := "🧹" |} _)
                _).
  - right. right. left. reflexivity.
  - split; [reflexivity | right; reflexivity].
Defined.

(** X9. "Back to Categories" clears the category only: a city chosen before
    stays selected, and the listing query of that selection lists, when
    its fetches work, the active services of that city in every
    category. *)
Theorem backToCategories_keeps_city :
  forall (w : World) (A k : string),
    let w3 := exec backToCategories
                (exec (selectCity k) (exec (handleCategoryClick A) w)) in
    view w3 = {| selectedCategory := None; selectedCity := Some k |}
    /\ (k <> "" ->
        fetches_succeed w3 ->
        exists l,
          result queryFn w3 = Val l
          /\ map ListingView.service l
             = map row (filter (fun s => is_active s
                                         && String.eqb (Service.city (row s)) k)
                               (services w))).
Proof.
  intros w A k w3. split; [reflexivity|].
  intros Hk Hok. destruct k as [|b k]; [contradiction|].
  destruct (queryFn_listed w3 Hok) as (l & Hl & Hm); [reflexivity|].
  exists l. split; [exact Hl|]. rewrite Hm.
  apply (f_equal (map row)). subst w3.
  change (services (exec backToCategories
            (exec (selectCity (String b k)) (exec (handleCategoryClick A) w))))
    with (services w).
  apply filter_ext. intro s. unfold listed, present. simpl.
  now rewrite andb_true_r.
Qed.

Lemma backToCategories_keeps_city_witness :
  exists l,
    result queryFn
      (exec backToCategories
         (exec (selectCity "Pune")
            (exec (handleCategoryClick "Cleaning") Sample.world))) = Val l
    /\ map ListingView.service l = [Sample.cleaning; Sample.haircut].
Proof.
  refine (proj2 (backToCategories_keeps_city Sample.world "Cleaning" "Pune")
                _ _).
  - discriminate.
  - split; [reflexivity | right; reflexivity].
Defined.

Lemma servicesWithProviders_In (rows : list Service.t)
  (providersData : option (list Profile.t)) (v : ListingView.t) :
  In v (servicesWithProviders rows providersData) ->
  In (ListingView.service v) rows.
Proof.
  unfold servicesWithProviders. intro H. apply in_map_iff in H.
  destruct H as (x & <- & Hx). exact Hx.
Qed.

(** X10. "Book Now" on a listed service: whatever the store does, the call
    stores nothing or stores one booking, and that booking refers to an
    active service of the table by its id and carries that service's
    provider, who is not the customer. *)
Theorem bookNow_books_the_listed_service :
  forall (w : World) (l : list ListingView.t) (v : ListingView.t),
    result queryFn w = Val l ->
    In v l ->
    let w2 := exec (bookNow v) (exec queryFn w) in
    bookings w2 = bookings w
    \/ exists b s,
        bookings w2 = bookings w ++ [b]
        /\ In s (services w) /\ is_active s = true
        /\ Service.id (row s) = Booking.service_id b
        /\ Service.provider_id (row s) = Booking.provider_id b
        /\ Booking.customer_id b <> Booking.provider_id b.
Proof.
  intros w l v Hl Hv w2. subst w2. unfold bookNow, exec.
  destruct (queryFn_shape w) as (l' & t & E & Hshape & _).
  unfold result in Hl. rewrite E in Hl. injection Hl as ->.
  rewrite E. cbn [snd].
  destruct Hshape as [->| ->]; [contradiction|].
  apply servicesWithProviders_In in Hv.
  destruct (fetched_sound w _ Hv) as (s & Hin & Hrow & Hact & _).
  destruct (handleBookService_outcome (set_trace (trace w ++ t) w)
              (Service.id (ListingView.service v))
              (Service.provider_id (ListingView.service v)))
    as (w' & E' & O).
  rewrite E'. cbn [snd].
  destruct O as [H|u H ?|u H _ _ Hact'|u H _ Hth|u H Hne _ _|u e H _ _ Hdown];
    cbn [bookings set_trace set_mutation set_bookings]; auto.
  right. exists b, s. subst b. subst d. rewrite Hrow. simpl.
  repeat split; auto.
Qed.

Lemma bookNow_books_the_listed_service_witness :
  let v := {| ListingView.service := Sample.cleaning;
              ListingView.provider := Some Sample.asha |} in
  let w2 := exec (bookNow v) (exec queryFn Sample.world) in
  bookings w2 = bookings Sample.world
  \/ exists b s,
      bookings w2 = bookings Sample.world ++ [b]
      /\ In s (services Sample.world) /\ is_active s = true
      /\ Service.id (row s) = Booking.service_id b
      /\ Service.provider_id (row s) = Booking.provider_id b
      /\ Booking.customer_id b <> Booking.provider_id b.
Proof.
  refine (bookNow_books_the_listed_service Sample.world
            [ {| ListingView.service := Sample.cleaning;
                 ListingView.provider := Some Sample.asha |};
              {| ListingView.service := Sample.windows;
                 ListingView.provider := Some Sample.asha |};
              {| ListingView.service := Sample.haircut;
                 ListingView.provider := None |} ]
            {| ListingView.service := Sample.cleaning;
               ListingView.provider := Some Sample.asha |} eq_refl _).
  left. reflexivity.
Defined.
